(** * PhysicalNetwork (server/PhysicalNetwork.cpp): a shallow embedding

    The manager of one physical network: its interface set, permission,
    default-network flag and UID-range map, together with the calls it makes
    to its collaborators (RouteController, SockDiag and the Delegate).

    Collaborators are external.  Every call to one of them is answered by an
    oracle that sees the whole history of earlier calls, and is recorded,
    with its answer, in a trace.  A method of the class becomes a function
    from the object's fields to a computation in the monad [M], returning
    the C++ return value and the fields after the call. *)

From Stdlib Require Import ZArith String List Lia Sorted.
From stdpp Require Import base gmap strings list.

Local Open Scope Z_scope.

(** ** Data *)

(** Modelled from the spec: the Permission enumeration (Permission.h is not
    part of the sources); the spec names the levels NONE < NETWORK < SYSTEM.
    The code of this file only compares permissions for equality. *)
Inductive Permission : Type :=
  | PERMISSION_NONE
  | PERMISSION_NETWORK
  | PERMISSION_SYSTEM.

#[global] Instance Permission_eq_dec : EqDecision Permission.
Proof. solve_decision. Defined.

(** A UID range is an inclusive interval; [UidRanges] is a collection of
    them, and the map is keyed by the (int32_t) sub-priority. *)
Definition UidRanges : Type := list (Z * Z).

(** The one table type this file passes to addRoute / removeRoute. *)
Inductive TableType : Type :=
  | INTERFACE.

#[global] Instance TableType_eq_dec : EqDecision TableType.
Proof. solve_decision. Defined.

(** errno values used by the file (Linux). *)
Definition EINVAL : Z := 22.
Definition EBADFD : Z := 77.

(** ** std::set<std::string>

    The interface set is iterated in order, so it is kept as the strictly
    increasing list of its elements (byte-wise lexicographic order). *)
Module StringSet.

Definition t : Type := list string.

Definition empty (s : t) : bool :=
  match s with
  | [] => true
  | _ :: _ => false
  end.

Definition find (x : string) (s : t) : bool := bool_decide (x ∈ s).

Fixpoint insert (x : string) (s : t) : t :=
  match s with
  | [] => [x]
  | y :: s' =>
      match String.compare x y with
      | Lt => x :: y :: s'
      | Eq => y :: s'
      | Gt => y :: insert x s'
      end
  end.

Fixpoint erase (x : string) (s : t) : t :=
  match s with
  | [] => []
  | y :: s' => if decide (y = x) then erase x s' else y :: erase x s'
  end.

End StringSet.

(** ** Collaborator calls *)

Inductive Call : Type :=
  (* RouteController *)
  | AddInterfaceToDefaultNetwork (interface : string) (permission : Permission)
  | RemoveInterfaceFromDefaultNetwork (interface : string) (permission : Permission)
  | ModifyPhysicalNetworkPermission
      (netId : N) (interface : string) (oldPermission newPermission : Permission)
      (local : bool)
  | AddRoute (interface destination nexthop : string) (tableType : TableType)
      (mtu priority : Z)
  | RemoveRoute (interface destination nexthop : string) (tableType : TableType)
      (priority : Z)
  | AddInterfaceToPhysicalNetwork
      (netId : N) (interface : string) (permission : Permission)
      (uidRangeMap : gmap Z UidRanges) (local : bool)
  | RemoveInterfaceFromPhysicalNetwork
      (netId : N) (interface : string) (permission : Permission)
      (uidRangeMap : gmap Z UidRanges) (local : bool)
  | AddUsersToPhysicalNetwork
      (netId : N) (interface : string) (uidRangeMap : gmap Z UidRanges) (local : bool)
  | RemoveUsersFromPhysicalNetwork
      (netId : N) (interface : string) (uidRangeMap : gmap Z UidRanges) (local : bool)
  (* SockDiag *)
  | SockDiagOpen
  | SockDiagDestroySocketsLackingPermission
      (netId : N) (permission : Permission) (excludeLoopback : bool)
  (* PhysicalNetwork::Delegate *)
  | AddFallthrough (interface : string) (permission : Permission)
  | RemoveFallthrough (interface : string) (permission : Permission).

(** A call with the value it returned.  All calls return an int, except
    SockDiag::open, whose bool is recorded as 0 (false) or non-zero (true). *)
Abbreviation Event := (Call * Z)%type (only parsing).

(** The collaborators: the answer to a call, given the calls made so far. *)
Definition Oracle : Type := list Event -> Call -> Z.

(** [succeeds c r]: the answer [r] to the call [c] reports success. *)
Definition succeeds (c : Call) (r : Z) : Prop :=
  match c with
  | SockDiagOpen => r <> 0
  | _ => r = 0
  end.

Definition allSucceed (o : Oracle) : Prop := forall h c, succeeds c (o h c).

Definition isSockDiag (c : Call) : bool :=
  match c with
  | SockDiagOpen | SockDiagDestroySocketsLackingPermission _ _ _ => true
  | _ => false
  end.

Definition isRoute (c : Call) : bool :=
  match c with
  | AddRoute _ _ _ _ _ _ | RemoveRoute _ _ _ _ _ => true
  | _ => false
  end.

Definition isDelegate (c : Call) : bool :=
  match c with
  | AddFallthrough _ _ | RemoveFallthrough _ _ => true
  | _ => false
  end.

(** The calls whose result the code tests: everything but the
    socket-diagnostics calls and the cache-invalidation routes. *)
Definition isChecked (c : Call) : bool := negb (isSockDiag c) && negb (isRoute c).

(** ** The monad of collaborator calls

    A computation reads the oracle and the history, and returns its value
    with the events it added. *)
Definition M (A : Type) : Type := Oracle -> list Event -> A * list Event.

#[global] Instance M_ret : MRet M := fun A (a : A) _ _ => (a, []).

#[global] Instance M_bind : MBind M := fun A B (k : A -> M B) (m : M A) o h =>
  let '(a, e1) := m o h in
  let '(b, e2) := k a o (h ++ e1) in
  (b, e1 ++ e2).

Definition call (c : Call) : M Z := fun o h => (o h c, [(c, o h c)]).

(** A range-for over the interfaces whose body may return from the
    enclosing function: the body's value is 0 to go on, and the function's
    return value otherwise. *)
Fixpoint forInterfaces (body : string -> M Z) (interfaces : list string) : M Z :=
  match interfaces with
  | [] => mret 0
  | interface :: rest =>
      ret ← body interface;
      if bool_decide (ret = 0) then forInterfaces body rest else mret ret
  end.

(** ** The object *)

Record PhysicalNetwork : Type := mkPhysicalNetwork {
  mNetId : N;
  mPermission : Permission;
  mIsDefault : bool;
  mIsLocalNetwork : bool;
  mInterfaces : StringSet.t;
  mUidRangeMap : gmap Z UidRanges
}.

Definition withPermission (p : Permission) (s : PhysicalNetwork) : PhysicalNetwork :=
  mkPhysicalNetwork (mNetId s) p (mIsDefault s) (mIsLocalNetwork s)
    (mInterfaces s) (mUidRangeMap s).

Definition withIsDefault (b : bool) (s : PhysicalNetwork) : PhysicalNetwork :=
  mkPhysicalNetwork (mNetId s) (mPermission s) b (mIsLocalNetwork s)
    (mInterfaces s) (mUidRangeMap s).

Definition withInterfaces (l : StringSet.t) (s : PhysicalNetwork) : PhysicalNetwork :=
  mkPhysicalNetwork (mNetId s) (mPermission s) (mIsDefault s) (mIsLocalNetwork s)
    l (mUidRangeMap s).

Definition withUidRangeMap (m : gmap Z UidRanges) (s : PhysicalNetwork) : PhysicalNetwork :=
  mkPhysicalNetwork (mNetId s) (mPermission s) (mIsDefault s) (mIsLocalNetwork s)
    (mInterfaces s) m.

(** The constructor. *)
Definition newPhysicalNetwork (netId : N) (local : bool) : PhysicalNetwork :=
  mkPhysicalNetwork netId PERMISSION_NONE false local [] ∅.

(** Modelled from the spec: Network::hasInterface (Network.cpp is not part
    of the sources): "Interface membership check: set lookup, pure." *)
Definition hasInterface (interface : string) (s : PhysicalNetwork) : bool :=
  StringSet.find interface (mInterfaces s).

(** ** The functions of PhysicalNetwork.cpp *)

Definition addToDefault (netId : N) (interface : string) (permission : Permission) : M Z :=
  ret ← call (AddInterfaceToDefaultNetwork interface permission);
  if bool_decide (ret = 0) then
    ret ← call (AddFallthrough interface permission);
    if bool_decide (ret = 0) then mret 0 else mret ret
  else mret ret.

Definition removeFromDefault (netId : N) (interface : string) (permission : Permission)
  : M Z :=
  ret ← call (RemoveInterfaceFromDefaultNetwork interface permission);
  if bool_decide (ret = 0) then
    ret ← call (RemoveFallthrough interface permission);
    if bool_decide (ret = 0) then mret 0 else mret ret
  else mret ret.

Definition getPermission (s : PhysicalNetwork) : Permission := mPermission s.

Definition destroySocketsLackingPermission (s : PhysicalNetwork) (permission : Permission)
  : M Z :=
  if decide (permission = PERMISSION_NONE) then mret 0
  else
    opened ← call SockDiagOpen;
    if bool_decide (opened = 0) then mret (- EBADFD)
    else
      ret ← call (SockDiagDestroySocketsLackingPermission (mNetId s) permission true);
      if bool_decide (ret = 0) then mret 0 else mret ret.

Definition invalidateRouteCache (interface : string) : M unit :=
  let priority := 100000 in
  _ ← call (AddRoute interface "0.0.0.0/0"%string "throw"%string INTERFACE 0 priority);
  _ ← call (RemoveRoute interface "0.0.0.0/0"%string "throw"%string INTERFACE priority);
  _ ← call (AddRoute interface "::/0"%string "throw"%string INTERFACE 0 priority);
  _ ← call (RemoveRoute interface "::/0"%string "throw"%string INTERFACE priority);
  mret tt.

Definition setPermission (permission : Permission) (s : PhysicalNetwork)
  : M (Z * PhysicalNetwork) :=
  if decide (permission = mPermission s) then mret (0, s)
  else if StringSet.empty (mInterfaces s) then mret (0, withPermission permission s)
  else
    _ ← destroySocketsLackingPermission s permission;
    ret ← forInterfaces (fun interface =>
             ret ← call (ModifyPhysicalNetworkPermission (mNetId s) interface
                           (mPermission s) permission (mIsLocalNetwork s));
             if bool_decide (ret = 0) then
               _ ← invalidateRouteCache interface; mret 0
             else mret ret)
           (mInterfaces s);
    if bool_decide (ret = 0) then
      ret ← (if mIsDefault s then
               forInterfaces (fun interface =>
                 ret ← addToDefault (mNetId s) interface permission;
                 if bool_decide (ret = 0) then
                   removeFromDefault (mNetId s) interface (mPermission s)
                 else mret ret)
               (mInterfaces s)
             else mret 0);
      if bool_decide (ret = 0) then
        _ ← destroySocketsLackingPermission s permission;
        mret (0, withPermission permission s)
      else mret (ret, s)
    else mret (ret, s).

Definition addAsDefault (s : PhysicalNetwork) : M (Z * PhysicalNetwork) :=
  if mIsDefault s then mret (0, s)
  else
    ret ← forInterfaces (fun interface =>
             addToDefault (mNetId s) interface (mPermission s))
           (mInterfaces s);
    if bool_decide (ret = 0) then mret (0, withIsDefault true s) else mret (ret, s).

Definition removeAsDefault (s : PhysicalNetwork) : M (Z * PhysicalNetwork) :=
  if negb (mIsDefault s) then mret (0, s)
  else
    ret ← forInterfaces (fun interface =>
             removeFromDefault (mNetId s) interface (mPermission s))
           (mInterfaces s);
    if bool_decide (ret = 0) then mret (0, withIsDefault false s) else mret (ret, s).

Definition addInterface (interface : string) (s : PhysicalNetwork)
  : M (Z * PhysicalNetwork) :=
  if hasInterface interface s then mret (0, s)
  else
    ret ← call (AddInterfaceToPhysicalNetwork (mNetId s) interface (mPermission s)
                  (mUidRangeMap s) (mIsLocalNetwork s));
    if bool_decide (ret = 0) then
      ret ← (if mIsDefault s then addToDefault (mNetId s) interface (mPermission s)
             else mret 0);
      if bool_decide (ret = 0) then
        mret (0, withInterfaces (StringSet.insert interface (mInterfaces s)) s)
      else mret (ret, s)
    else mret (ret, s).

Definition removeInterface (interface : string) (s : PhysicalNetwork)
  : M (Z * PhysicalNetwork) :=
  if negb (hasInterface interface s) then mret (0, s)
  else
    ret ← (if mIsDefault s then removeFromDefault (mNetId s) interface (mPermission s)
           else mret 0);
    if bool_decide (ret = 0) then
      ret ← call (RemoveInterfaceFromPhysicalNetwork (mNetId s) interface (mPermission s)
                    (mUidRangeMap s) (mIsLocalNetwork s));
      if bool_decide (ret = 0) then
        mret (0, withInterfaces (StringSet.erase interface (mInterfaces s)) s)
      else mret (ret, s)
    else mret (ret, s).

(** Modelled from the spec: Network::addToUidRangeMap (Network.cpp is not
    part of the sources): "addUsers inserts/merges the ranges under that
    sub-priority". *)
Definition addToUidRangeMap (uidRanges : UidRanges) (subPriority : Z)
    (m : gmap Z UidRanges) : gmap Z UidRanges :=
  match m !! subPriority with
  | Some present => <[subPriority := present ++ uidRanges]> m
  | None => <[subPriority := uidRanges]> m
  end.

(** Modelled from the spec: Network::removeFromUidRangeMap (Network.cpp is
    not part of the sources): "removeUsers removes the ranges, dropping the
    sub-priority entry entirely if it becomes empty". *)
Definition removeFromUidRangeMap (uidRanges : UidRanges) (subPriority : Z)
    (m : gmap Z UidRanges) : gmap Z UidRanges :=
  match m !! subPriority with
  | Some present =>
      match filter (fun r => r ∉ uidRanges) present with
      | [] => delete subPriority m
      | remaining => <[subPriority := remaining]> m
      end
  | None => m
  end.

(** The sub-priority bounds are constants of UidRanges.h and
    canAddUidRanges is a method of the base class Network; neither is part
    of the sources, so the functions that use them take them as
    parameters. *)
Section Users.

Variables SUB_PRIORITY_HIGHEST SUB_PRIORITY_LOWEST SUB_PRIORITY_NO_DEFAULT : Z.
Variable canAddUidRanges : UidRanges -> PhysicalNetwork -> bool.

Definition isValidSubPriority (priority : Z) : bool :=
  (Z.leb SUB_PRIORITY_HIGHEST priority && Z.leb priority SUB_PRIORITY_LOWEST)
  || Z.eqb priority SUB_PRIORITY_NO_DEFAULT.

Definition addUsers (uidRanges : UidRanges) (subPriority : Z) (s : PhysicalNetwork)
  : M (Z * PhysicalNetwork) :=
  if negb (isValidSubPriority subPriority) || negb (canAddUidRanges uidRanges s)
  then mret (- EINVAL, s)
  else
    ret ← forInterfaces (fun interface =>
             call (AddUsersToPhysicalNetwork (mNetId s) interface
                     {[ subPriority := uidRanges ]} (mIsLocalNetwork s)))
           (mInterfaces s);
    if bool_decide (ret = 0) then
      mret (0, withUidRangeMap
                 (addToUidRangeMap uidRanges subPriority (mUidRangeMap s)) s)
    else mret (ret, s).

Definition removeUsers (uidRanges : UidRanges) (subPriority : Z) (s : PhysicalNetwork)
  : M (Z * PhysicalNetwork) :=
  if negb (isValidSubPriority subPriority) then mret (- EINVAL, s)
  else
    ret ← forInterfaces (fun interface =>
             call (RemoveUsersFromPhysicalNetwork (mNetId s) interface
                     {[ subPriority := uidRanges ]} (mIsLocalNetwork s)))
           (mInterfaces s);
    if bool_decide (ret = 0) then
      mret (0, withUidRangeMap
                 (removeFromUidRangeMap uidRanges subPriority (mUidRangeMap s)) s)
    else mret (ret, s).

End Users.

(** ** Running a computation *)

Definition retOf {A : Type} (r : (Z * A) * list Event) : Z := r.1.1.
Definition stateOf {A : Type} (r : (Z * A) * list Event) : A := r.1.2.
Definition eventsOf {A : Type} (r : A * list Event) : list Event := r.2.

(** Collaborators that always succeed. *)
Definition alwaysOk : Oracle := fun _ c =>
  match c with
  | SockDiagOpen => 1
  | _ => 0
  end.

Definition eth0 : string := "eth0".
Definition wlan0 : string := "wlan0".

Definition net100 (p : Permission) (isDefault : bool) (l : list string) : PhysicalNetwork :=
  mkPhysicalNetwork 100 p isDefault false l ∅.

(** ** Definitions used by the statements below *)

(** The two loops of setPermission, named. *)
Definition modifyLoop (permission : Permission) (s : PhysicalNetwork) : M Z :=
  forInterfaces (fun interface =>
      ret ← call (ModifyPhysicalNetworkPermission (mNetId s) interface
                    (mPermission s) permission (mIsLocalNetwork s));
      if bool_decide (ret = 0) then
        _ ← invalidateRouteCache interface; mret 0
      else mret ret)
    (mInterfaces s).

Definition defaultLoop (permission : Permission) (s : PhysicalNetwork) : M Z :=
  if mIsDefault s then
    forInterfaces (fun interface =>
        ret ← addToDefault (mNetId s) interface permission;
        if bool_decide (ret = 0) then
          removeFromDefault (mNetId s) interface (mPermission s)
        else mret ret)
      (mInterfaces s)
  else mret 0.

(** A routing table that refuses to add an interface (-ENODEV). *)
Definition failAddInterface : Oracle := fun _ c =>
  match c with
  | AddInterfaceToPhysicalNetwork _ _ _ _ _ => -19
  | SockDiagOpen => 1
  | _ => 0
  end.

(** Two inclusive UID ranges share a UID. *)
Definition rangesOverlap (a b : Z * Z) : bool := (a.1 <=? b.2) && (b.1 <=? a.2).

(** Modelled from the spec: Network::canAddUidRanges (Network.cpp is not
    part of the sources): addUsers "rejects if the UID ranges are not addable
    under whatever uniqueness/overlap policy the network enforces".  The
    policy taken here as an instance: the ranges can be added when none of
    them overlaps a range the map already holds.  The theorems about
    addUsers hold for every policy; only the examples use this one. *)
Definition overlapPolicy (uidRanges : UidRanges) (s : PhysicalNetwork) : bool :=
  forallb (fun r =>
      forallb (fun present => negb (rangesOverlap r present))
        (concat (map snd (map_to_list (mUidRangeMap s)))))
    uidRanges.

(** A network with two interfaces and users registered at sub-priority 10. *)
Definition net100Users : PhysicalNetwork :=
  mkPhysicalNetwork 100 PERMISSION_NONE false false [eth0; wlan0]
    {[ 10 := [(1000, 1999)] ]}.

(** [checkedOk e]: if the code tests the result of [e], the result is 0. *)
Definition checkedOk (e : Event) : Prop := isChecked e.1 = true -> e.2 = 0.

(** The shape of a run that returns at the first tested call that fails:
    either it returns 0 and no tested call failed, or it returns the result
    of its last call, a tested one, and no tested call failed before. *)
Definition failFast (ret : Z) (evs : list Event) : Prop :=
  (ret = 0 /\ Forall checkedOk evs) \/
  (ret <> 0 /\
   exists pre c, evs = pre ++ [(c, ret)] /\ isChecked c = true /\ Forall checkedOk pre).

(** Collaborators whose diagnostics facility does not open; every other
    call succeeds. *)
Definition sockDiagDown : Oracle := fun _ _ => 0.

(** Collaborators whose diagnostics facility opens but fails to close
    sockets (-EPERM); every other call succeeds. *)
Definition sockDiagDenied : Oracle := fun _ c =>
  match c with
  | SockDiagOpen => 1
  | SockDiagDestroySocketsLackingPermission _ _ _ => -1
  | _ => 0
  end.

(** A routing table that refuses the permission change (-ENODEV). *)
Definition modifyFails : Oracle := fun _ c =>
  match c with
  | SockDiagOpen => 1
  | ModifyPhysicalNetworkPermission _ _ _ _ _ => -19
  | _ => 0
  end.

(** The two calls that take an interface out of the default network. *)
Definition isRemoveFromDefault (c : Call) : bool :=
  match c with
  | RemoveInterfaceFromDefaultNetwork _ _ | RemoveFallthrough _ _ => true
  | _ => false
  end.

(** [addThenRemove new old evs]: in the trace [evs], a default-network
    removal of an interface under [old] comes right after the two calls
    that registered the same interface under [new], both of which returned
    0; and a fallthrough removal under [old] comes right after those two
    and the default-network removal, which returned 0. *)
Definition addThenRemove (new old : Permission) (evs : list Event) : Prop :=
  forall (k : nat) (i : string) (r : Z),
    (evs !! k = Some (RemoveInterfaceFromDefaultNetwork i old, r) ->
     exists k0, k = S (S k0) /\
       evs !! k0 = Some (AddInterfaceToDefaultNetwork i new, 0) /\
       evs !! S k0 = Some (AddFallthrough i new, 0)) /\
    (evs !! k = Some (RemoveFallthrough i old, r) ->
     exists k0, k = S (S (S k0)) /\
       evs !! k0 = Some (AddInterfaceToDefaultNetwork i new, 0) /\
       evs !! S k0 = Some (AddFallthrough i new, 0) /\
       evs !! S (S k0) = Some (RemoveInterfaceFromDefaultNetwork i old, 0)).

(** ** Further definitions: the set invariant and the scripts of calls *)

(** The order of std::set<std::string>: byte-wise lexicographic. *)
Definition stringLt (x y : string) : Prop := String.compare x y = Lt.

(** The invariant of the interface set: its elements, in iteration order,
    are strictly increasing (so no name occurs twice). *)
Definition wellFormed (l : StringSet.t) : Prop := StronglySorted stringLt l.

Definition isSockDiagOpen (c : Call) : bool :=
  match c with
  | SockDiagOpen => true
  | _ => false
  end.

(** The four calls about the default network. *)
Definition isDefaultCall (c : Call) : bool :=
  match c with
  | AddInterfaceToDefaultNetwork _ _ | RemoveInterfaceFromDefaultNetwork _ _
  | AddFallthrough _ _ | RemoveFallthrough _ _ => true
  | _ => false
  end.

(** The calls setPermission makes for one interface whose permission change
    succeeds: the change, then the two throw-route pairs. *)
Definition permissionSteps (permission : Permission) (s : PhysicalNetwork)
    (interface : string) : list Call :=
  [ModifyPhysicalNetworkPermission (mNetId s) interface (mPermission s) permission
     (mIsLocalNetwork s);
   AddRoute interface "0.0.0.0/0" "throw" INTERFACE 0 100000;
   RemoveRoute interface "0.0.0.0/0" "throw" INTERFACE 100000;
   AddRoute interface "::/0" "throw" INTERFACE 0 100000;
   RemoveRoute interface "::/0" "throw" INTERFACE 100000].

(** The calls setPermission makes for one interface of a default network
    when all of them succeed. *)
Definition defaultSteps (permission : Permission) (s : PhysicalNetwork)
    (interface : string) : list Call :=
  [AddInterfaceToDefaultNetwork interface permission;
   AddFallthrough interface permission;
   RemoveInterfaceFromDefaultNetwork interface (mPermission s);
   RemoveFallthrough interface (mPermission s)].

(** The calls of addAsDefault and of removeAsDefault for one interface. *)
Definition addSteps (s : PhysicalNetwork) (interface : string) : list Call :=
  [AddInterfaceToDefaultNetwork interface (mPermission s);
   AddFallthrough interface (mPermission s)].

Definition removeSteps (s : PhysicalNetwork) (interface : string) : list Call :=
  [RemoveInterfaceFromDefaultNetwork interface (mPermission s);
   RemoveFallthrough interface (mPermission s)].

(** A delegate that refuses the fallthrough of wlan0 (-EBUSY). *)
Definition fallthroughFails : Oracle := fun _ c =>
  match c with
  | SockDiagOpen => 1
  | AddFallthrough i _ => if decide (i = wlan0) then -16 else 0
  | _ => 0
  end.

(** ** Two runs of the scenarios of the specification *)

Example scenario_addInterface :
  addInterface wlan0 (net100 PERMISSION_NONE false [eth0]) alwaysOk [] =
  ((0, net100 PERMISSION_NONE false [eth0; wlan0]),
   [(AddInterfaceToPhysicalNetwork 100 wlan0 PERMISSION_NONE ∅ false, 0)]).
Proof. vm_compute. reflexivity. Qed.

Example scenario_setPermission :
  let r := setPermission PERMISSION_SYSTEM (net100 PERMISSION_NONE false [eth0; wlan0])
             alwaysOk [] in
  retOf r = 0 /\ getPermission (stateOf r) = PERMISSION_SYSTEM /\
  map fst (eventsOf r) =
    [SockDiagOpen; SockDiagDestroySocketsLackingPermission 100 PERMISSION_SYSTEM true;
     ModifyPhysicalNetworkPermission 100 eth0 PERMISSION_NONE PERMISSION_SYSTEM false;
     AddRoute eth0 "0.0.0.0/0" "throw" INTERFACE 0 100000;
     RemoveRoute eth0 "0.0.0.0/0" "throw" INTERFACE 100000;
     AddRoute eth0 "::/0" "throw" INTERFACE 0 100000;
     RemoveRoute eth0 "::/0" "throw" INTERFACE 100000;
     ModifyPhysicalNetworkPermission 100 wlan0 PERMISSION_NONE PERMISSION_SYSTEM false;
     AddRoute wlan0 "0.0.0.0/0" "throw" INTERFACE 0 100000;
     RemoveRoute wlan0 "0.0.0.0/0" "throw" INTERFACE 100000;
     AddRoute wlan0 "::/0" "throw" INTERFACE 0 100000;
     RemoveRoute wlan0 "::/0" "throw" INTERFACE 100000;
     SockDiagOpen; SockDiagDestroySocketsLackingPermission 100 PERMISSION_SYSTEM true].
Proof. vm_compute. repeat split; reflexivity. Qed.

(** ** Reasoning about computations *)

Lemma run_bind {A B : Type} (m : M A) (k : A -> M B) (o : Oracle) (h : list Event) :
  (m ≫= k) o h = (let '(a, e1) := m o h in
                  let '(b, e2) := k a o (h ++ e1) in (b, e1 ++ e2)).
Proof. reflexivity. Qed.

Lemma run_ret {A : Type} (a : A) (o : Oracle) (h : list Event) :
  (mret a : M A) o h = (a, []).
Proof. reflexivity. Qed.

Lemma run_call (c : Call) (o : Oracle) (h : list Event) :
  call c o h = (o h c, [(c, o h c)]).
Proof. reflexivity. Qed.

Ltac run_step :=
  repeat (rewrite ?run_bind, ?run_ret, ?run_call; cbn [fst snd];
          try rewrite (bool_decide_true (0 = 0)) by reflexivity).

(** Case analysis on the test of a return value. *)
Ltac case_ret :=
  match goal with
  | |- context [bool_decide (?x = 0)] =>
      let E := fresh "E" in
      destruct (bool_decide_reflect (x = 0)) as [E|E]; [try rewrite !E|]
  end.

(** A property of (return value, events) that holds of every run of the
    body and is kept by sequencing holds of the loop. *)
Section LoopRule.

Variable R : Z -> list Event -> Prop.
Hypothesis R_nil : R 0 [].
Hypothesis R_seq : forall e1 r e2, R 0 e1 -> R r e2 -> R r (e1 ++ e2).

Lemma forInterfaces_rule (body : string -> M Z) (l : list string) (o : Oracle) :
  (forall i h, i ∈ l -> R (body i o h).1 (body i o h).2) ->
  forall h, R (forInterfaces body l o h).1 (forInterfaces body l o h).2.
Proof.
  induction l as [|i l IH]; intros Hbody h; cbn [forInterfaces].
  - exact R_nil.
  - rewrite run_bind.
    pose proof (Hbody i h ltac:(left)) as Hi.
    destruct (body i o h) as [r e1]; cbn [fst snd] in Hi.
    case_bool_decide as Hr.
    + subst r.
      specialize (IH (fun j h' Hj => Hbody j h' ltac:(right; exact Hj)) (h ++ e1)).
      destruct (forInterfaces body l o (h ++ e1)) as [r2 e2]; cbn [fst snd] in *.
      now apply R_seq.
    + rewrite run_ret. cbn [fst snd]. rewrite app_nil_r. exact Hi.
Qed.

End LoopRule.

Lemma forInterfaces_Forall (P : Event -> Prop) (body : string -> M Z)
    (l : list string) (o : Oracle) :
  (forall i h, i ∈ l -> Forall P (body i o h).2) ->
  forall h, Forall P (forInterfaces body l o h).2.
Proof.
  intros Hbody h.
  apply (forInterfaces_rule (fun _ e => Forall P e)); auto.
  intros e1 _ e2 H1 H2. now apply Forall_app.
Qed.

(** ** Calls that change nothing *)

(** C9: setPermission with the current permission, addAsDefault on a default
    network, removeAsDefault on a non-default network, addInterface of a
    present name and removeInterface of an absent name all return 0, call no
    collaborator and leave every field as it was. *)
Theorem noop_calls_change_nothing (s : PhysicalNetwork) (o : Oracle) (h : list Event) :
  (forall p, p = mPermission s -> setPermission p s o h = ((0, s), [])) /\
  (mIsDefault s = true -> addAsDefault s o h = ((0, s), [])) /\
  (mIsDefault s = false -> removeAsDefault s o h = ((0, s), [])) /\
  (forall i, i ∈ mInterfaces s -> addInterface i s o h = ((0, s), [])) /\
  (forall i, i ∉ mInterfaces s -> removeInterface i s o h = ((0, s), [])).
Proof.
  repeat split.
  - intros p ->. unfold setPermission. now rewrite decide_True.
  - intros Hd. unfold addAsDefault. now rewrite Hd.
  - intros Hd. unfold removeAsDefault. now rewrite Hd.
  - intros i Hi. unfold addInterface, hasInterface, StringSet.find.
    now rewrite bool_decide_true.
  - intros i Hi. unfold removeInterface, hasInterface, StringSet.find.
    now rewrite bool_decide_false.
Qed.

Lemma noop_calls_change_nothing_witness :
  let s := net100 PERMISSION_NETWORK true [eth0] in
  setPermission PERMISSION_NETWORK s alwaysOk [] = ((0, s), []) /\
  addAsDefault s alwaysOk [] = ((0, s), []) /\
  removeAsDefault (withIsDefault false s) alwaysOk [] = ((0, withIsDefault false s), []) /\
  addInterface eth0 s alwaysOk [] = ((0, s), []) /\
  removeInterface wlan0 s alwaysOk [] = ((0, s), []).
Proof.
  intros s.
  destruct (noop_calls_change_nothing s alwaysOk []) as (H1 & H2 & _ & H4 & H5).
  destruct (noop_calls_change_nothing (withIsDefault false s) alwaysOk [])
    as (_ & _ & H3 & _ & _).
  split; [apply H1; reflexivity|].
  split; [apply H2; reflexivity|].
  split; [apply H3; reflexivity|].
  split; [apply H4; vm_compute; left|].
  apply H5. vm_compute. intros H. inversion H as [|? ? ? H']. inversion H'.
Defined.

(** ** The socket-closing passes *)

Lemma destroySockets_events (s : PhysicalNetwork) (p : Permission) (o : Oracle)
    (h : list Event) :
  Forall (fun e => isSockDiag e.1 = true) (destroySocketsLackingPermission s p o h).2.
Proof.
  unfold destroySocketsLackingPermission.
  destruct (decide (p = PERMISSION_NONE)); [constructor|].
  run_step. case_bool_decide; run_step; [repeat constructor|].
  case_bool_decide; run_step; repeat constructor.
Qed.

Lemma invalidateRouteCache_events (i : string) (o : Oracle) (h : list Event) :
  Forall (fun e => isRoute e.1 = true) (invalidateRouteCache i o h).2.
Proof. unfold invalidateRouteCache. run_step. repeat constructor. Qed.

Lemma addToDefault_events (n : N) (i : string) (p : Permission) (o : Oracle)
    (h : list Event) :
  Forall (fun e => isSockDiag e.1 = false /\ isRoute e.1 = false) (addToDefault n i p o h).2.
Proof.
  unfold addToDefault. run_step.
  repeat (case_bool_decide; run_step); repeat constructor.
Qed.

Lemma removeFromDefault_events (n : N) (i : string) (p : Permission) (o : Oracle)
    (h : list Event) :
  Forall (fun e => isSockDiag e.1 = false /\ isRoute e.1 = false)
    (removeFromDefault n i p o h).2.
Proof.
  unfold removeFromDefault. run_step.
  repeat (case_bool_decide; run_step); repeat constructor.
Qed.

Lemma setPermission_unfold (p : Permission) (s : PhysicalNetwork) :
  p <> mPermission s -> StringSet.empty (mInterfaces s) = false ->
  setPermission p s =
    (_ ← destroySocketsLackingPermission s p;
     ret ← modifyLoop p s;
     if bool_decide (ret = 0) then
       ret ← defaultLoop p s;
       if bool_decide (ret = 0) then
         _ ← destroySocketsLackingPermission s p;
         mret (0, withPermission p s)
       else mret (ret, s)
     else mret (ret, s)).
Proof.
  intros Hp He. unfold setPermission. rewrite decide_False by exact Hp.
  rewrite He. reflexivity.
Qed.

Lemma modifyLoop_events (p : Permission) (s : PhysicalNetwork) (o : Oracle)
    (h : list Event) :
  Forall (fun e => isSockDiag e.1 = false) (modifyLoop p s o h).2.
Proof.
  apply forInterfaces_Forall. intros i h' _. run_step.
  case_bool_decide; run_step; [|repeat constructor].
  pose proof (invalidateRouteCache_events i o
                (h' ++ [(ModifyPhysicalNetworkPermission (mNetId s) i (mPermission s) p
                           (mIsLocalNetwork s), 0)])) as Hr.
  rewrite H in *.
  destruct (invalidateRouteCache i o _) as [[] e]; cbn [fst snd] in *.
  run_step. rewrite app_nil_r. constructor; [reflexivity|].
  eapply Forall_impl; [exact Hr|]. intros [[] r]; cbn; congruence.
Qed.

Lemma defaultLoop_events (p : Permission) (s : PhysicalNetwork) (o : Oracle)
    (h : list Event) :
  Forall (fun e => isSockDiag e.1 = false /\ isRoute e.1 = false) (defaultLoop p s o h).2.
Proof.
  unfold defaultLoop. destruct (mIsDefault s); [|constructor].
  apply forInterfaces_Forall. intros i h' _. run_step.
  pose proof (addToDefault_events (mNetId s) i p o h') as Ha.
  destruct (addToDefault (mNetId s) i p o h') as [r e1]; cbn [fst snd] in *.
  case_bool_decide; run_step.
  - pose proof (removeFromDefault_events (mNetId s) i (mPermission s) o (h' ++ e1)) as Hb.
    destruct (removeFromDefault _ _ _ _ _) as [r2 e2]; cbn [fst snd] in *.
    now apply Forall_app.
  - now rewrite app_nil_r.
Qed.

(** C10: with target PERMISSION_NONE, destroySocketsLackingPermission returns
    0 at once, without any call; and no call that setPermission makes for
    that target is a socket-diagnostics call. *)
Theorem none_never_touches_sockdiag (s : PhysicalNetwork) (o : Oracle) (h : list Event) :
  destroySocketsLackingPermission s PERMISSION_NONE o h = (0, []) /\
  Forall (fun e => isSockDiag e.1 = false)
    (eventsOf (setPermission PERMISSION_NONE s o h)).
Proof.
  split; [reflexivity|].
  unfold eventsOf, setPermission.
  destruct (decide (PERMISSION_NONE = mPermission s)); [constructor|].
  destruct (StringSet.empty (mInterfaces s)); [constructor|].
  fold (modifyLoop PERMISSION_NONE s). fold (defaultLoop PERMISSION_NONE s).
  change (destroySocketsLackingPermission s PERMISSION_NONE) with (mret 0 : M Z).
  run_step.
  pose proof (modifyLoop_events PERMISSION_NONE s o (h ++ [])) as H1.
  destruct (modifyLoop PERMISSION_NONE s o (h ++ [])) as [r1 e1]; cbn [fst snd] in *.
  case_bool_decide; run_step; [|now cbn [app]; rewrite app_nil_r].
  pose proof (defaultLoop_events PERMISSION_NONE s o ((h ++ []) ++ e1)) as H2.
  destruct (defaultLoop PERMISSION_NONE s o ((h ++ []) ++ e1)) as [r2 e2];
    cbn [fst snd] in *.
  assert (H2' : Forall (fun e => isSockDiag e.1 = false) e2).
  { eapply Forall_impl; [exact H2|]. intros e He; apply He. }
  case_bool_decide; run_step; cbn [app]; rewrite ?app_nil_r, ?Forall_app; auto.
Qed.

(** ** Interface attach and detach *)

Lemma StringSet_elem_of_erase (x y : string) (l : StringSet.t) :
  y ∈ StringSet.erase x l <-> y ∈ l /\ y <> x.
Proof.
  induction l as [|z l IH]; cbn [StringSet.erase].
  - split; [intros H; inversion H | intros [H _]; inversion H].
  - destruct (decide (z = x)) as [->|Hz].
    + rewrite IH, elem_of_cons. intuition congruence.
    + rewrite !elem_of_cons, IH. intuition congruence.
Qed.

Lemma StringSet_elem_of_insert (x y : string) (l : StringSet.t) :
  y ∈ StringSet.insert x l <-> y = x \/ y ∈ l.
Proof.
  induction l as [|z l IH]; cbn [StringSet.insert].
  - rewrite list_elem_of_singleton, elem_of_nil. tauto.
  - destruct (String.compare x z) eqn:Hc.
    + apply String.compare_eq_iff in Hc as ->. rewrite elem_of_cons. tauto.
    + rewrite !elem_of_cons. tauto.
    + rewrite !elem_of_cons, IH. tauto.
Qed.

(** The four ways removeInterface can run on a default network. *)
Lemma removeInterface_default_cases (i : string) (s : PhysicalNetwork) (o : Oracle)
    (h : list Event) :
  mIsDefault s = true -> i ∈ mInterfaces s ->
  let c1 := RemoveInterfaceFromDefaultNetwork i (mPermission s) in
  let c2 := RemoveFallthrough i (mPermission s) in
  let c3 := RemoveInterfaceFromPhysicalNetwork (mNetId s) i (mPermission s)
              (mUidRangeMap s) (mIsLocalNetwork s) in
  (exists r, r <> 0 /\ removeInterface i s o h = ((r, s), [(c1, r)])) \/
  (exists r, r <> 0 /\ removeInterface i s o h = ((r, s), [(c1, 0); (c2, r)])) \/
  (exists r, r <> 0 /\ removeInterface i s o h = ((r, s), [(c1, 0); (c2, 0); (c3, r)])) \/
  removeInterface i s o h =
    ((0, withInterfaces (StringSet.erase i (mInterfaces s)) s),
     [(c1, 0); (c2, 0); (c3, 0)]).
Proof.
  intros Hd Hi c1 c2 c3. unfold removeInterface, hasInterface, StringSet.find.
  rewrite bool_decide_true by exact Hi. cbn [negb]. rewrite Hd.
  unfold removeFromDefault. fold c1 c2 c3. run_step.
  case_ret; run_step.
  2:{ case_ret; [contradiction|]. run_step. left. eauto. }
  case_ret; run_step.
  2:{ case_ret; [contradiction|]. run_step. right; left. eauto. }
  cbn [app].
  case_ret; run_step.
  - right; right; right. reflexivity.
  - right; right; left. eauto.
Qed.

(** C4: removeInterface of an attached interface on a default network.  The
    physical-network removal is the third call, made after the
    default-network removal and the fallthrough removal of the same
    interface have both returned 0; the name is erased exactly when every
    call made succeeded, and on any failure the object is unchanged. *)
Theorem removeInterface_order_and_erase (i : string) (s : PhysicalNetwork) (o : Oracle)
    (h : list Event) :
  mIsDefault s = true -> i ∈ mInterfaces s ->
  let r := removeInterface i s o h in
  (forall k x,
      eventsOf r !! k =
        Some (RemoveInterfaceFromPhysicalNetwork (mNetId s) i (mPermission s)
                (mUidRangeMap s) (mIsLocalNetwork s), x) ->
      k = 2%nat /\
      eventsOf r !! 0%nat = Some (RemoveInterfaceFromDefaultNetwork i (mPermission s), 0) /\
      eventsOf r !! 1%nat = Some (RemoveFallthrough i (mPermission s), 0)) /\
  (Forall (fun e => succeeds e.1 e.2) (eventsOf r) ->
      retOf r = 0 /\ length (eventsOf r) = 3%nat /\
      stateOf r = withInterfaces (StringSet.erase i (mInterfaces s)) s /\
      i ∉ mInterfaces (stateOf r)) /\
  (~ Forall (fun e => succeeds e.1 e.2) (eventsOf r) ->
      retOf r <> 0 /\ stateOf r = s /\ mInterfaces (stateOf r) = mInterfaces s).
Proof.
  intros Hd Hi r. subst r. unfold eventsOf, retOf, stateOf.
  destruct (removeInterface_default_cases i s o h Hd Hi)
    as [(x & Hx & ->)|[(x & Hx & ->)|[(x & Hx & ->)| ->]]]; cbn [fst snd].
  - split; [|split].
    + intros [|[|k]] y Hk; discriminate.
    + intros Hall. inversion Hall as [|? ? H1 _]; subst. cbn in H1. contradiction.
    + auto.
  - split; [|split].
    + intros [|[|[|k]]] y Hk; discriminate.
    + intros Hall. inversion Hall as [|? ? _ H2]; subst.
      inversion H2 as [|? ? H1 _]; subst. cbn in H1. contradiction.
    + auto.
  - split; [|split].
    + intros [|[|[|k]]] y Hk; try discriminate. auto.
    + intros Hall. inversion Hall as [|? ? _ H2]; subst.
      inversion H2 as [|? ? _ H3]; subst.
      inversion H3 as [|? ? H1 _]; subst. cbn in H1. contradiction.
    + auto.
  - split; [|split].
    + intros [|[|[|k]]] y Hk; try discriminate. auto.
    + intros _. repeat split. cbn [mInterfaces withInterfaces].
      rewrite StringSet_elem_of_erase. tauto.
    + intros Hn. exfalso. apply Hn. repeat constructor.
Qed.

Lemma removeInterface_order_and_erase_witness :
  let s := net100 PERMISSION_NONE true [eth0; wlan0] in
  let r := removeInterface eth0 s alwaysOk [] in
  eventsOf r !! 2%nat =
    Some (RemoveInterfaceFromPhysicalNetwork 100 eth0 PERMISSION_NONE ∅ false, 0) /\
  eventsOf r !! 0%nat = Some (RemoveInterfaceFromDefaultNetwork eth0 PERMISSION_NONE, 0) /\
  eventsOf r !! 1%nat = Some (RemoveFallthrough eth0 PERMISSION_NONE, 0).
Proof.
  intros s r.
  assert (Hd : mIsDefault s = true) by reflexivity.
  assert (Hi : eth0 ∈ mInterfaces s) by (vm_compute; left).
  destruct (removeInterface_order_and_erase eth0 s alwaysOk [] Hd Hi) as [Hord _].
  assert (Hk : eventsOf r !! 2%nat =
    Some (RemoveInterfaceFromPhysicalNetwork 100 eth0 PERMISSION_NONE ∅ false, 0))
    by (vm_compute; reflexivity).
  split; [exact Hk|]. exact (proj2 (Hord 2%nat 0 Hk)).
Defined.

(** C7: when a call made by addInterface fails (the routing-table step or,
    on a default network, one of the two default-network steps), the error
    is returned, the interface is not inserted, and removeInterface of the
    same name afterwards returns 0 without a call or a change. *)
Theorem failed_addInterface_then_removeInterface (i : string) (s : PhysicalNetwork)
    (o : Oracle) (h : list Event) :
  let r := addInterface i s o h in
  Exists (fun e => ~ succeeds e.1 e.2) (eventsOf r) ->
  retOf r <> 0 /\ (exists c, last (eventsOf r) = Some (c, retOf r)) /\
  stateOf r = s /\ (i ∉ mInterfaces (stateOf r)) /\
  forall o' h', removeInterface i (stateOf r) o' h' = ((0, stateOf r), []).
Proof.
  intros r. subst r. unfold eventsOf, retOf, stateOf.
  assert (Hnoop : i ∉ mInterfaces s ->
            forall o' h', removeInterface i s o' h' = ((0, s), [])).
  { intros Hi o' h'. unfold removeInterface, hasInterface, StringSet.find.
    now rewrite bool_decide_false. }
  unfold addInterface, hasInterface, StringSet.find.
  destruct (bool_decide_reflect (i ∈ mInterfaces s)) as [Hi|Hi].
  { run_step. intros H. inversion H. }
  run_step. case_ret; run_step.
  2:{ intros _. repeat split; eauto. }
  destruct (mIsDefault s); run_step.
  2:{ cbn [app].
      intros H. inversion H as [? ? H1|? ? H1]; subst; [|inversion H1].
      cbn in H1. contradiction. }
  unfold addToDefault. run_step. case_ret; run_step.
  2:{ case_ret; [contradiction|]. run_step. cbn [app last]. intros _.
      repeat split; eauto. }
  case_ret; run_step.
  2:{ case_ret; [contradiction|]. run_step. cbn [app last]. intros _.
      repeat split; eauto. }
  cbn [app].
  intros H. exfalso.
  repeat match goal with
         | H : Exists _ (_ :: _) |- _ =>
             let H1 := fresh in
             inversion H as [? ? H1|? ? H1]; subst; clear H;
             [cbn in H1; contradiction|]
         | H : Exists _ [] |- _ => inversion H
         end.
Qed.

Lemma failed_addInterface_then_removeInterface_witness :
  let s := net100 PERMISSION_NONE false [eth0] in
  let r := addInterface wlan0 s failAddInterface [] in
  retOf r = -19 /\ stateOf r = s /\
  removeInterface wlan0 (stateOf r) failAddInterface (eventsOf r) = ((0, s), []).
Proof.
  intros s r.
  assert (Hf : Exists (fun e => ~ succeeds e.1 e.2) (eventsOf r)).
  { vm_compute. left. discriminate. }
  destruct (failed_addInterface_then_removeInterface wlan0 s failAddInterface [] Hf)
    as (_ & _ & Hs & _ & Hrm).
  split; [reflexivity|]. split; [exact Hs|].
  etransitivity; [apply Hrm|]. now rewrite Hs.
Defined.

(** ** UID-range users *)

(** A loop whose body is one call: either every call returned 0, or the
    loop stopped at the first call that did not. *)
Lemma forInterfaces_call (f : string -> Call) (l : list string) (o : Oracle) :
  forall h,
  forInterfaces (fun i => call (f i)) l o h = (0, map (fun i => (f i, 0)) l) \/
  exists l1 i l2 r,
    l = l1 ++ i :: l2 /\ r <> 0 /\
    forInterfaces (fun i => call (f i)) l o h =
      (r, map (fun i => (f i, 0)) l1 ++ [(f i, r)]).
Proof.
  induction l as [|i l IH]; intros h; cbn [forInterfaces].
  - left. reflexivity.
  - run_step. case_ret.
    + destruct (IH (h ++ [(f i, 0)])) as [->|(l1 & j & l2 & r & -> & Hr & ->)].
      * left. reflexivity.
      * right. exists (i :: l1), j, l2, r. auto.
    + right. exists [], i, l, (o h (f i)). run_step. auto.
Qed.

Section UsersProofs.

Variables SUB_PRIORITY_HIGHEST SUB_PRIORITY_LOWEST SUB_PRIORITY_NO_DEFAULT : Z.
Variable canAddUidRanges : UidRanges -> PhysicalNetwork -> bool.

Let isValid := isValidSubPriority SUB_PRIORITY_HIGHEST SUB_PRIORITY_LOWEST
                 SUB_PRIORITY_NO_DEFAULT.
Let addUsers' := addUsers SUB_PRIORITY_HIGHEST SUB_PRIORITY_LOWEST
                   SUB_PRIORITY_NO_DEFAULT canAddUidRanges.
Let removeUsers' := removeUsers SUB_PRIORITY_HIGHEST SUB_PRIORITY_LOWEST
                      SUB_PRIORITY_NO_DEFAULT.

Lemma isValidSubPriority_spec (priority : Z) :
  isValid priority = true <->
  (SUB_PRIORITY_HIGHEST <= priority <= SUB_PRIORITY_LOWEST) \/
  priority = SUB_PRIORITY_NO_DEFAULT.
Proof. unfold isValid, isValidSubPriority. lia. Qed.

Lemma addUsers_cases (uidRanges : UidRanges) (subPriority : Z) (s : PhysicalNetwork)
    (o : Oracle) (h : list Event) :
  let c i := AddUsersToPhysicalNetwork (mNetId s) i {[ subPriority := uidRanges ]}
               (mIsLocalNetwork s) in
  ((isValid subPriority = false \/ canAddUidRanges uidRanges s = false) /\
   addUsers' uidRanges subPriority s o h = ((- EINVAL, s), [])) \/
  (isValid subPriority = true /\ canAddUidRanges uidRanges s = true /\
   (addUsers' uidRanges subPriority s o h =
      ((0, withUidRangeMap (addToUidRangeMap uidRanges subPriority (mUidRangeMap s)) s),
       map (fun i => (c i, 0)) (mInterfaces s)) \/
    exists l1 i l2 r,
      mInterfaces s = l1 ++ i :: l2 /\ r <> 0 /\
      addUsers' uidRanges subPriority s o h =
        ((r, s), map (fun i => (c i, 0)) l1 ++ [(c i, r)]))).
Proof.
  intros c. unfold addUsers', addUsers. fold isValid.
  destruct (isValid subPriority); cbn [negb orb]; [|left; auto].
  destruct (canAddUidRanges uidRanges s); cbn [negb]; [|left; auto].
  right. split; [reflexivity|]. split; [reflexivity|]. run_step.
  pose proof (forInterfaces_call c (mInterfaces s) o h) as Hloop.
  subst c. cbv beta in Hloop.
  destruct Hloop as [->|(l1 & i & l2 & r & Hl & Hr & ->)].
  - left. run_step. now rewrite app_nil_r.
  - right. exists l1, i, l2, r. rewrite bool_decide_false by exact Hr.
    run_step. now rewrite app_nil_r.
Qed.

Lemma removeUsers_cases (uidRanges : UidRanges) (subPriority : Z) (s : PhysicalNetwork)
    (o : Oracle) (h : list Event) :
  let c i := RemoveUsersFromPhysicalNetwork (mNetId s) i {[ subPriority := uidRanges ]}
               (mIsLocalNetwork s) in
  (isValid subPriority = false /\
   removeUsers' uidRanges subPriority s o h = ((- EINVAL, s), [])) \/
  (isValid subPriority = true /\
   (removeUsers' uidRanges subPriority s o h =
      ((0, withUidRangeMap (removeFromUidRangeMap uidRanges subPriority (mUidRangeMap s))
             s),
       map (fun i => (c i, 0)) (mInterfaces s)) \/
    exists l1 i l2 r,
      mInterfaces s = l1 ++ i :: l2 /\ r <> 0 /\
      removeUsers' uidRanges subPriority s o h =
        ((r, s), map (fun i => (c i, 0)) l1 ++ [(c i, r)]))).
Proof.
  intros c. unfold removeUsers', removeUsers. fold isValid.
  destruct (isValid subPriority); cbn [negb]; [|left; auto].
  right. split; [reflexivity|]. run_step.
  pose proof (forInterfaces_call c (mInterfaces s) o h) as Hloop.
  subst c. cbv beta in Hloop.
  destruct Hloop as [->|(l1 & i & l2 & r & Hl & Hr & ->)].
  - left. run_step. now rewrite app_nil_r.
  - right. exists l1, i, l2, r. rewrite bool_decide_false by exact Hr.
    run_step. now rewrite app_nil_r.
Qed.

(** C5: addUsers and removeUsers with a valid sub-priority.  Either the
    loop completes: every attached interface got one call, in order, each
    returning 0, the method returns 0 and uidRangeMap is updated; or it
    stops at the first call that fails: the interfaces after it get no
    call, the method returns that call's result as it is and the object,
    uidRangeMap included, is unchanged.  (addUsers may also be refused
    before the loop, for ranges that cannot be added.) *)
Theorem users_loops_fail_fast (uidRanges : UidRanges) (subPriority : Z)
    (s : PhysicalNetwork) (o : Oracle) (h : list Event) :
  isValid subPriority = true ->
  let add i := AddUsersToPhysicalNetwork (mNetId s) i {[ subPriority := uidRanges ]}
                 (mIsLocalNetwork s) in
  let remove i := RemoveUsersFromPhysicalNetwork (mNetId s) i
                    {[ subPriority := uidRanges ]} (mIsLocalNetwork s) in
  ((canAddUidRanges uidRanges s = false /\
    addUsers' uidRanges subPriority s o h = ((- EINVAL, s), [])) \/
   addUsers' uidRanges subPriority s o h =
     ((0, withUidRangeMap (addToUidRangeMap uidRanges subPriority (mUidRangeMap s)) s),
      map (fun i => (add i, 0)) (mInterfaces s)) \/
   exists l1 i l2 r,
     mInterfaces s = l1 ++ i :: l2 /\ r <> 0 /\
     addUsers' uidRanges subPriority s o h =
       ((r, s), map (fun i => (add i, 0)) l1 ++ [(add i, r)])) /\
  (removeUsers' uidRanges subPriority s o h =
     ((0, withUidRangeMap (removeFromUidRangeMap uidRanges subPriority (mUidRangeMap s))
            s),
      map (fun i => (remove i, 0)) (mInterfaces s)) \/
   exists l1 i l2 r,
     mInterfaces s = l1 ++ i :: l2 /\ r <> 0 /\
     removeUsers' uidRanges subPriority s o h =
       ((r, s), map (fun i => (remove i, 0)) l1 ++ [(remove i, r)])).
Proof.
  intros Hv add remove. split.
  - destruct (addUsers_cases uidRanges subPriority s o h)
      as [[[Hi|Hc] Hr]|(_ & _ & [Hr|Hr])].
    + congruence.
    + left. auto.
    + right; left. exact Hr.
    + right; right. exact Hr.
  - destruct (removeUsers_cases uidRanges subPriority s o h)
      as [[Hi Hr]|(_ & Hr)].
    + congruence.
    + exact Hr.
Qed.

(** C6 (amended): removeUsers returns -EINVAL without a call and with
    uidRangeMap unchanged exactly when the sub-priority is outside
    [SUB_PRIORITY_HIGHEST, SUB_PRIORITY_LOWEST] and is not
    SUB_PRIORITY_NO_DEFAULT; addUsers does so exactly when the
    sub-priority is invalid in that sense or canAddUidRanges refuses the
    ranges; isValidSubPriority depends on the value alone. *)
Theorem invalid_subPriority_rejected (uidRanges : UidRanges) (subPriority : Z)
    (s : PhysicalNetwork) (o : Oracle) (h : list Event) :
  let ra := addUsers' uidRanges subPriority s o h in
  let rr := removeUsers' uidRanges subPriority s o h in
  (isValid subPriority = false <->
     ~ (SUB_PRIORITY_HIGHEST <= subPriority <= SUB_PRIORITY_LOWEST) /\
     subPriority <> SUB_PRIORITY_NO_DEFAULT) /\
  (retOf ra = - EINVAL /\ eventsOf ra = [] /\
   mUidRangeMap (stateOf ra) = mUidRangeMap s <->
     isValid subPriority = false \/ canAddUidRanges uidRanges s = false) /\
  (retOf rr = - EINVAL /\ eventsOf rr = [] /\
   mUidRangeMap (stateOf rr) = mUidRangeMap s <->
     isValid subPriority = false).
Proof.
  intros ra rr. subst ra rr. unfold retOf, eventsOf, stateOf.
  split; [|split].
  - unfold isValid, isValidSubPriority. lia.
  - destruct (addUsers_cases uidRanges subPriority s o h)
      as [[Hbad ->]|(Hv & Hc & [->|(l1 & i & l2 & r & Hl & Hr & ->)])];
      cbn [fst snd].
    + tauto.
    + split; [|intros [?|?]; congruence].
      intros (Hret & Hev & _). discriminate Hret.
    + split; [|intros [?|?]; congruence].
      intros (_ & Hev & _). destruct l1; discriminate Hev.
  - destruct (removeUsers_cases uidRanges subPriority s o h)
      as [[Hbad ->]|(Hv & [->|(l1 & i & l2 & r & Hl & Hr & ->)])];
      cbn [fst snd].
    + tauto.
    + split; [|congruence].
      intros (Hret & Hev & _). discriminate Hret.
    + split; [|congruence].
      intros (_ & Hev & _). destruct l1; discriminate Hev.
Qed.

End UsersProofs.

Lemma users_loops_fail_fast_witness :
  isValidSubPriority 0 998 999 10 = true /\
  (removeUsers 0 998 999 [(1000, 1999)] 10 net100Users alwaysOk [] =
     ((0, withUidRangeMap
            (removeFromUidRangeMap [(1000, 1999)] 10 (mUidRangeMap net100Users))
            net100Users),
      map (fun i => (RemoveUsersFromPhysicalNetwork 100 i {[ 10 := [(1000, 1999)] ]} false,
                     0))
        [eth0; wlan0]) \/
   exists l1 i l2 r,
     [eth0; wlan0] = l1 ++ i :: l2 /\ r <> 0 /\
     removeUsers 0 998 999 [(1000, 1999)] 10 net100Users alwaysOk [] =
       ((r, net100Users),
        map (fun i => (RemoveUsersFromPhysicalNetwork 100 i {[ 10 := [(1000, 1999)] ]}
                         false, 0)) l1 ++
        [(RemoveUsersFromPhysicalNetwork 100 i {[ 10 := [(1000, 1999)] ]} false, r)])).
Proof.
  split; [reflexivity|].
  exact (proj2 (users_loops_fail_fast 0 998 999 overlapPolicy [(1000, 1999)] 10
                  net100Users alwaysOk [] eq_refl)).
Defined.

Example scenario_removeUsers :
  mUidRangeMap (stateOf (removeUsers 0 998 999 [(1000, 1999)] 10 net100Users alwaysOk []))
  = ∅.
Proof. vm_compute. reflexivity. Qed.

(** C6, as first stated, fails for addUsers: with the valid sub-priority 20,
    ranges that overlap those already in the map are refused with -EINVAL,
    without a call and without a change of uidRangeMap. *)
Lemma addUsers_rejects_unaddable_ranges :
  let r := addUsers 0 998 999 overlapPolicy [(1500, 2500)] 20 net100Users alwaysOk [] in
  (retOf r = - EINVAL /\ eventsOf r = [] /\
   mUidRangeMap (stateOf r) = mUidRangeMap net100Users) /\
  ~ (~ (0 <= 20 <= 998) /\ 20 <> 999).
Proof.
  split.
  - vm_compute. auto.
  - intros [H _]. apply H. lia.
Qed.

(** ** Default-network toggling *)

Lemma allSucceed_zero (o : Oracle) (h : list Event) (c : Call) :
  allSucceed o -> c <> SockDiagOpen -> o h c = 0.
Proof. intros Ho Hc. specialize (Ho h c). destruct c; cbn in Ho; congruence. Qed.

Lemma addToDefault_allSucceed (n : N) (i : string) (p : Permission) (o : Oracle)
    (h : list Event) :
  allSucceed o ->
  addToDefault n i p o h =
    (0, [(AddInterfaceToDefaultNetwork i p, 0); (AddFallthrough i p, 0)]).
Proof.
  intros Ho. unfold addToDefault. run_step.
  rewrite !(allSucceed_zero o) by (exact Ho || discriminate). run_step.
  rewrite !(allSucceed_zero o) by (exact Ho || discriminate). run_step.
  reflexivity.
Qed.

Lemma removeFromDefault_allSucceed (n : N) (i : string) (p : Permission) (o : Oracle)
    (h : list Event) :
  allSucceed o ->
  removeFromDefault n i p o h =
    (0, [(RemoveInterfaceFromDefaultNetwork i p, 0); (RemoveFallthrough i p, 0)]).
Proof.
  intros Ho. unfold removeFromDefault. run_step.
  rewrite !(allSucceed_zero o) by (exact Ho || discriminate). run_step.
  rewrite !(allSucceed_zero o) by (exact Ho || discriminate). run_step.
  reflexivity.
Qed.

(** A loop whose body always returns 0 with the events [evs i]. *)
Lemma forInterfaces_all_zero (body : string -> M Z) (evs : string -> list Event)
    (l : list string) (o : Oracle) :
  (forall i h, body i o h = (0, evs i)) ->
  forall h, forInterfaces body l o h = (0, concat (map evs l)).
Proof.
  intros Hbody. induction l as [|i l IH]; intros h; cbn [forInterfaces map concat].
  - reflexivity.
  - run_step. rewrite Hbody. run_step. now rewrite IH.
Qed.

Lemma filter_delegate_adds (p : Permission) (l : list string) :
  filter (fun e : Event => isDelegate e.1 = true)
    (concat (map (fun i => [(AddInterfaceToDefaultNetwork i p, 0);
                            (AddFallthrough i p, 0)]) l)) =
  map (fun i => (AddFallthrough i p, 0)) l.
Proof.
  induction l as [|i l IH]; [reflexivity|].
  cbn [map concat]. rewrite filter_app, IH. reflexivity.
Qed.

Lemma filter_delegate_removes (p : Permission) (l : list string) :
  filter (fun e : Event => isDelegate e.1 = true)
    (concat (map (fun i => [(RemoveInterfaceFromDefaultNetwork i p, 0);
                            (RemoveFallthrough i p, 0)]) l)) =
  map (fun i => (RemoveFallthrough i p, 0)) l.
Proof.
  induction l as [|i l IH]; [reflexivity|].
  cbn [map concat]. rewrite filter_app, IH. reflexivity.
Qed.

(** C8: on a network that is not the default, with collaborators that
    always succeed, addAsDefault followed by removeAsDefault makes the
    delegate calls addFallthrough for every interface and then
    removeFallthrough for every interface, all at the current permission,
    and leaves isDefault false, as it was before the pair. *)
Theorem default_toggle_symmetry (s : PhysicalNetwork) (o : Oracle) (h : list Event) :
  allSucceed o -> mIsDefault s = false ->
  let r1 := addAsDefault s o h in
  let r2 := removeAsDefault (stateOf r1) o (h ++ eventsOf r1) in
  retOf r1 = 0 /\ mIsDefault (stateOf r1) = true /\ retOf r2 = 0 /\
  filter (fun e : Event => isDelegate e.1 = true) (eventsOf r1 ++ eventsOf r2) =
    map (fun i => (AddFallthrough i (mPermission s), 0)) (mInterfaces s) ++
    map (fun i => (RemoveFallthrough i (mPermission s), 0)) (mInterfaces s) /\
  mIsDefault (stateOf r2) = false /\ mIsDefault (stateOf r2) = mIsDefault s /\
  stateOf r2 = s.
Proof.
  intros Ho Hd r1 r2.
  assert (H1 : r1 = ((0, withIsDefault true s),
                     concat (map (fun i => [(AddInterfaceToDefaultNetwork i (mPermission s), 0);
                                            (AddFallthrough i (mPermission s), 0)])
                               (mInterfaces s)))).
  { subst r1. unfold addAsDefault. rewrite Hd. run_step.
    rewrite (forInterfaces_all_zero _
               (fun i => [(AddInterfaceToDefaultNetwork i (mPermission s), 0);
                          (AddFallthrough i (mPermission s), 0)]))
      by (intros; now apply addToDefault_allSucceed).
    run_step. now rewrite app_nil_r. }
  assert (H2 : r2 = ((0, withIsDefault false s),
                     concat (map (fun i =>
                                    [(RemoveInterfaceFromDefaultNetwork i (mPermission s), 0);
                                     (RemoveFallthrough i (mPermission s), 0)])
                               (mInterfaces s)))).
  { subst r2. rewrite H1. unfold stateOf, eventsOf. cbn [fst snd].
    unfold removeAsDefault. cbn [mIsDefault withIsDefault negb]. run_step.
    cbn [mInterfaces mPermission mNetId].
    rewrite (forInterfaces_all_zero _
               (fun i => [(RemoveInterfaceFromDefaultNetwork i (mPermission s), 0);
                          (RemoveFallthrough i (mPermission s), 0)]))
      by (intros; now apply removeFromDefault_allSucceed).
    run_step. now rewrite app_nil_r. }
  rewrite H1, H2. unfold retOf, stateOf, eventsOf. cbn [fst snd].
  repeat split; try (now rewrite Hd).
  - rewrite filter_app, filter_delegate_adds, filter_delegate_removes. reflexivity.
  - destruct s; cbn in *. now subst.
Qed.

Lemma alwaysOk_allSucceed : allSucceed alwaysOk.
Proof. intros h c. destruct c; cbn; congruence. Defined.

Lemma default_toggle_symmetry_witness :
  let s := net100 PERMISSION_NETWORK false [eth0; wlan0] in
  let r1 := addAsDefault s alwaysOk [] in
  let r2 := removeAsDefault (stateOf r1) alwaysOk ([] ++ eventsOf r1) in
  filter (fun e : Event => isDelegate e.1 = true) (eventsOf r1 ++ eventsOf r2) =
    [(AddFallthrough eth0 PERMISSION_NETWORK, 0);
     (AddFallthrough wlan0 PERMISSION_NETWORK, 0);
     (RemoveFallthrough eth0 PERMISSION_NETWORK, 0);
     (RemoveFallthrough wlan0 PERMISSION_NETWORK, 0)] /\
  mIsDefault (stateOf r2) = false.
Proof.
  intros s r1 r2.
  destruct (default_toggle_symmetry s alwaysOk [] alwaysOk_allSucceed eq_refl)
    as (_ & _ & _ & Hf & Hd & _).
  split; [exact Hf | exact Hd].
Defined.

(** ** Permission changes *)

Lemma failFast_nil : failFast 0 [].
Proof. left. split; [reflexivity | constructor]. Qed.

Lemma failFast_seq (e1 : list Event) (r : Z) (e2 : list Event) :
  failFast 0 e1 -> failFast r e2 -> failFast r (e1 ++ e2).
Proof.
  intros [[_ H1]|[H1 _]]; [|congruence].
  intros [[-> H2]|(Hr & pre & c & -> & Hc & H2)].
  - left. split; [reflexivity|]. now apply Forall_app.
  - right. split; [exact Hr|]. exists (e1 ++ pre), c.
    rewrite app_assoc. repeat split; auto. now apply Forall_app.
Qed.

Lemma failFast_call (c : Call) (r : Z) :
  isChecked c = true -> failFast r [(c, r)].
Proof.
  intros Hc. destruct (decide (r = 0)) as [->|Hr].
  - left. split; [reflexivity|]. repeat constructor.
  - right. split; [exact Hr|]. exists [], c. repeat split; auto.
Qed.

Lemma failFast_unchecked (evs : list Event) :
  Forall (fun e => isChecked e.1 = false) evs -> failFast 0 evs.
Proof.
  intros H. left. split; [reflexivity|].
  eapply Forall_impl; [exact H|]. intros e He Hc. congruence.
Qed.

Lemma failFast_zero_iff (r : Z) (evs : list Event) :
  failFast r evs -> (r = 0 <-> Forall checkedOk evs).
Proof.
  intros [[-> H]|(Hr & pre & c & -> & Hc & H)]; [tauto|].
  split; [congruence|]. intros Hall.
  apply Forall_app in Hall as [_ Hl]. inversion Hl as [|? ? Hx _]; subst.
  exfalso. apply Hr. exact (Hx Hc).
Qed.

(** The three ways addToDefault and removeFromDefault can run. *)
Lemma addToDefault_cases (n : N) (i : string) (p : Permission) (o : Oracle)
    (h : list Event) :
  (exists r, r <> 0 /\
     addToDefault n i p o h = (r, [(AddInterfaceToDefaultNetwork i p, r)])) \/
  (exists r, r <> 0 /\
     addToDefault n i p o h =
       (r, [(AddInterfaceToDefaultNetwork i p, 0); (AddFallthrough i p, r)])) \/
  addToDefault n i p o h =
    (0, [(AddInterfaceToDefaultNetwork i p, 0); (AddFallthrough i p, 0)]).
Proof.
  unfold addToDefault. run_step. case_ret; run_step.
  - case_ret; run_step.
    + right; right. reflexivity.
    + right; left. eauto.
  - left. eauto.
Qed.

Lemma removeFromDefault_cases (n : N) (i : string) (p : Permission) (o : Oracle)
    (h : list Event) :
  (exists r, r <> 0 /\
     removeFromDefault n i p o h = (r, [(RemoveInterfaceFromDefaultNetwork i p, r)])) \/
  (exists r, r <> 0 /\
     removeFromDefault n i p o h =
       (r, [(RemoveInterfaceFromDefaultNetwork i p, 0); (RemoveFallthrough i p, r)])) \/
  removeFromDefault n i p o h =
    (0, [(RemoveInterfaceFromDefaultNetwork i p, 0); (RemoveFallthrough i p, 0)]).
Proof.
  unfold removeFromDefault. run_step. case_ret; run_step.
  - case_ret; run_step.
    + right; right. reflexivity.
    + right; left. eauto.
  - left. eauto.
Qed.

Lemma addToDefault_failFast (n : N) (i : string) (p : Permission) (o : Oracle)
    (h : list Event) :
  failFast (addToDefault n i p o h).1 (addToDefault n i p o h).2.
Proof.
  destruct (addToDefault_cases n i p o h) as [(r & Hr & ->)|[(r & Hr & ->)| ->]];
    cbn [fst snd].
  - now apply failFast_call.
  - apply (failFast_seq [_] r [_]); now apply failFast_call.
  - apply (failFast_seq [_] 0 [_]); now apply failFast_call.
Qed.

Lemma removeFromDefault_failFast (n : N) (i : string) (p : Permission) (o : Oracle)
    (h : list Event) :
  failFast (removeFromDefault n i p o h).1 (removeFromDefault n i p o h).2.
Proof.
  destruct (removeFromDefault_cases n i p o h) as [(r & Hr & ->)|[(r & Hr & ->)| ->]];
    cbn [fst snd].
  - now apply failFast_call.
  - apply (failFast_seq [_] r [_]); now apply failFast_call.
  - apply (failFast_seq [_] 0 [_]); now apply failFast_call.
Qed.

Lemma modifyLoop_failFast (p : Permission) (s : PhysicalNetwork) (o : Oracle)
    (h : list Event) :
  failFast (modifyLoop p s o h).1 (modifyLoop p s o h).2.
Proof.
  apply (forInterfaces_rule failFast failFast_nil failFast_seq).
  intros i h' _. run_step. case_ret; run_step.
  - pose proof (invalidateRouteCache_events i o
                  (h' ++ [(ModifyPhysicalNetworkPermission (mNetId s) i (mPermission s) p
                             (mIsLocalNetwork s), 0)])) as Hr.
    destruct (invalidateRouteCache i o _) as [[] e]; cbn [fst snd] in *. run_step.
    rewrite app_nil_r. apply (failFast_seq [_]); [now apply failFast_call|].
    apply failFast_unchecked. eapply Forall_impl; [exact Hr|].
    intros [c r] Hc; cbn in *. unfold isChecked. rewrite Hc.
    now rewrite andb_false_r.
  - now apply failFast_call.
Qed.

Lemma defaultLoop_failFast (p : Permission) (s : PhysicalNetwork) (o : Oracle)
    (h : list Event) :
  failFast (defaultLoop p s o h).1 (defaultLoop p s o h).2.
Proof.
  unfold defaultLoop. destruct (mIsDefault s); [|apply failFast_nil].
  apply (forInterfaces_rule failFast failFast_nil failFast_seq).
  intros i h' _. run_step.
  pose proof (addToDefault_failFast (mNetId s) i p o h') as Ha.
  destruct (addToDefault (mNetId s) i p o h') as [r e1]; cbn [fst snd] in *.
  case_ret; run_step.
  - pose proof (removeFromDefault_failFast (mNetId s) i (mPermission s) o (h' ++ e1))
      as Hb.
    destruct (removeFromDefault _ _ _ _ _) as [r2 e2]; cbn [fst snd] in *.
    subst r. now apply failFast_seq.
  - now rewrite app_nil_r.
Qed.

Lemma destroySockets_failFast (s : PhysicalNetwork) (p : Permission) (o : Oracle)
    (h : list Event) :
  failFast 0 (destroySocketsLackingPermission s p o h).2.
Proof.
  apply failFast_unchecked.
  eapply Forall_impl; [apply destroySockets_events|].
  intros [c r] Hc; cbn in *. unfold isChecked. now rewrite Hc.
Qed.

(** setPermission on a network with interfaces, for a new permission: the
    run has the fail-fast shape with respect to the tested calls, and the
    object changes exactly when 0 is returned. *)
Lemma setPermission_failFast (p : Permission) (s : PhysicalNetwork) (o : Oracle)
    (h : list Event) :
  p <> mPermission s -> StringSet.empty (mInterfaces s) = false ->
  let r := setPermission p s o h in
  failFast (retOf r) (eventsOf r) /\
  (retOf r = 0 -> stateOf r = withPermission p s) /\
  (retOf r <> 0 -> stateOf r = s).
Proof.
  intros Hp He r. subst r. rewrite setPermission_unfold by assumption.
  unfold retOf, eventsOf, stateOf. run_step.
  pose proof (destroySockets_failFast s p o h) as H0.
  destruct (destroySocketsLackingPermission s p o h) as [r0 e0]; cbn [fst snd] in *.
  run_step.
  pose proof (modifyLoop_failFast p s o (h ++ e0)) as H1.
  destruct (modifyLoop p s o (h ++ e0)) as [r1 e1]; cbn [fst snd] in *.
  run_step. case_ret; run_step.
  2:{ rewrite app_nil_r. split; [now apply failFast_seq|]. tauto. }
  subst r1.
  pose proof (defaultLoop_failFast p s o ((h ++ e0) ++ e1)) as H2.
  destruct (defaultLoop p s o ((h ++ e0) ++ e1)) as [r2 e2]; cbn [fst snd] in *.
  run_step. case_ret; run_step.
  2:{ rewrite app_nil_r. split; [|tauto].
      apply failFast_seq; [exact H0|]. now apply failFast_seq. }
  subst r2.
  pose proof (destroySockets_failFast s p o (((h ++ e0) ++ e1) ++ e2)) as H3.
  destruct (destroySocketsLackingPermission s p o _) as [r3 e3]; cbn [fst snd] in *.
  run_step. rewrite app_nil_r. split; [|tauto].
  apply failFast_seq; [exact H0|]. apply failFast_seq; [exact H1|].
  now apply failFast_seq.
Qed.

Lemma modifyLoop_first (p : Permission) (s : PhysicalNetwork) (o : Oracle)
    (h : list Event) (i : string) (rest : list string) :
  mInterfaces s = i :: rest ->
  let c := ModifyPhysicalNetworkPermission (mNetId s) i (mPermission s) p
             (mIsLocalNetwork s) in
  exists tail, (modifyLoop p s o h).2 = (c, o h c) :: tail.
Proof.
  intros Hi c. unfold modifyLoop. rewrite Hi. cbn [forInterfaces]. run_step.
  fold c. case_ret; run_step.
  - destruct (invalidateRouteCache i o _) as [[] e1]. run_step.
    destruct (forInterfaces _ rest o _) as [r2 e2]. cbn [fst snd app]. eauto.
  - case_ret; [contradiction|]. run_step. cbn [app snd]. eauto.
Qed.

Lemma setPermission_events_prefix (p : Permission) (s : PhysicalNetwork) (o : Oracle)
    (h : list Event) :
  p <> mPermission s -> StringSet.empty (mInterfaces s) = false ->
  let e0 := (destroySocketsLackingPermission s p o h).2 in
  exists tail,
    eventsOf (setPermission p s o h) = e0 ++ (modifyLoop p s o (h ++ e0)).2 ++ tail.
Proof.
  intros Hp He e0. subst e0. rewrite setPermission_unfold by assumption.
  unfold eventsOf. run_step.
  destruct (destroySocketsLackingPermission s p o h) as [r0 e0]; cbn [fst snd].
  run_step.
  destruct (modifyLoop p s o (h ++ e0)) as [r1 e1]; cbn [fst snd].
  destruct (_ o ((h ++ e0) ++ e1)) as [b e2]. cbn [snd]. eauto.
Qed.

(** C1 (amended): for a new permission other than PERMISSION_NONE on a
    network with interfaces, destroySocketsLackingPermission reports a
    diagnostics facility that does not open as -EBADFD, and a failed closure
    step as that step's error, but setPermission does not use that result:
    its next call is the permission change of the first interface, and its
    own return value is 0 exactly when no tested call (routing-table
    permission change, default-network and fallthrough calls) failed, and
    otherwise the result of the last call made, a tested one. *)
Theorem setPermission_discards_sockdiag_result (p : Permission) (s : PhysicalNetwork)
    (o : Oracle) (h : list Event) :
  p <> mPermission s -> StringSet.empty (mInterfaces s) = false ->
  p <> PERMISSION_NONE ->
  let d := destroySocketsLackingPermission s p o h in
  let r := setPermission p s o h in
  let close := SockDiagDestroySocketsLackingPermission (mNetId s) p true in
  (o h SockDiagOpen = 0 -> d = (- EBADFD, [(SockDiagOpen, 0)])) /\
  (forall x, o h SockDiagOpen = x -> x <> 0 ->
     d = (o (h ++ [(SockDiagOpen, x)]) close,
          [(SockDiagOpen, x); (close, o (h ++ [(SockDiagOpen, x)]) close)])) /\
  (exists i rest x tail,
     mInterfaces s = i :: rest /\
     eventsOf r =
       d.2 ++ (ModifyPhysicalNetworkPermission (mNetId s) i (mPermission s) p
                 (mIsLocalNetwork s), x) :: tail) /\
  (retOf r = 0 <-> Forall checkedOk (eventsOf r)) /\
  (retOf r <> 0 ->
     exists pre c, eventsOf r = pre ++ [(c, retOf r)] /\ isChecked c = true).
Proof.
  intros Hp He Hn d r close. split; [|split; [|split; [|split]]].
  - intros Ho. subst d. unfold destroySocketsLackingPermission.
    rewrite decide_False by exact Hn. run_step. rewrite Ho.
    rewrite bool_decide_true by reflexivity. reflexivity.
  - intros x Ho Hx. subst d. unfold destroySocketsLackingPermission.
    rewrite decide_False by exact Hn. run_step. rewrite Ho.
    rewrite bool_decide_false by exact Hx. run_step. fold close.
    case_ret; reflexivity.
  - destruct (mInterfaces s) as [|i rest] eqn:Hi; [discriminate|].
    destruct (setPermission_events_prefix p s o h Hp) as [tail Ht].
    { now rewrite Hi. }
    destruct (modifyLoop_first p s o (h ++ d.2) i rest Hi) as [tail' Ht'].
    exists i, rest, (o (h ++ d.2) (ModifyPhysicalNetworkPermission (mNetId s) i
                                    (mPermission s) p (mIsLocalNetwork s))),
      (tail' ++ tail).
    split; [reflexivity|]. subst r d. rewrite Ht, Ht'. reflexivity.
  - apply failFast_zero_iff. now apply setPermission_failFast.
  - intros Hr. destruct (setPermission_failFast p s o h Hp He) as [[[H0 _]|H] _].
    + contradiction.
    + destruct H as (_ & pre & c & Hev & Hc & _). eauto.
Qed.

Lemma setPermission_discards_sockdiag_result_witness :
  let s := net100 PERMISSION_NONE false [eth0] in
  let r := setPermission PERMISSION_SYSTEM s sockDiagDown [] in
  destroySocketsLackingPermission s PERMISSION_SYSTEM sockDiagDown [] =
    (- EBADFD, [(SockDiagOpen, 0)]) /\
  (retOf r = 0 <-> Forall checkedOk (eventsOf r)).
Proof.
  intros s r.
  assert (Hp : PERMISSION_SYSTEM <> mPermission s) by discriminate.
  assert (He : StringSet.empty (mInterfaces s) = false) by reflexivity.
  assert (Hn : PERMISSION_SYSTEM <> PERMISSION_NONE) by discriminate.
  destruct (setPermission_discards_sockdiag_result PERMISSION_SYSTEM s sockDiagDown []
              Hp He Hn) as (Hd & _ & _ & Hz & _).
  split; [apply Hd; reflexivity | exact Hz].
Defined.

(** C1, as first stated, fails: the diagnostics facility does not open (or
    the closure step fails), destroySocketsLackingPermission returns the
    error, and setPermission still returns 0 and changes the permission. *)
Lemma setPermission_succeeds_without_sockdiag :
  let s := net100 PERMISSION_NONE false [eth0] in
  (destroySocketsLackingPermission s PERMISSION_SYSTEM sockDiagDown [] =
     (- EBADFD, [(SockDiagOpen, 0)]) /\
   retOf (setPermission PERMISSION_SYSTEM s sockDiagDown []) = 0 /\
   getPermission (stateOf (setPermission PERMISSION_SYSTEM s sockDiagDown [])) =
     PERMISSION_SYSTEM) /\
  ((destroySocketsLackingPermission s PERMISSION_SYSTEM sockDiagDenied []).1 = -1 /\
   retOf (setPermission PERMISSION_SYSTEM s sockDiagDenied []) = 0 /\
   getPermission (stateOf (setPermission PERMISSION_SYSTEM s sockDiagDenied [])) =
     PERMISSION_SYSTEM).
Proof. vm_compute. repeat split; reflexivity. Qed.

(** C2 (amended): for a target other than the current permission.  With no
    interface, the permission is stored without a call and 0 is returned.
    With interfaces, the permission is stored exactly when no tested call
    failed (the routing-table permission changes and, on a default network,
    the default-network and fallthrough calls; the results of the
    socket-diagnostics and cache-invalidation calls are not looked at), and
    that is exactly when 0 is returned; when an error is returned it is the
    result of the last call, a tested one, and the object, its permission
    included, is unchanged. *)
Theorem setPermission_stores_permission (p : Permission) (s : PhysicalNetwork)
    (o : Oracle) (h : list Event) :
  p <> mPermission s ->
  let r := setPermission p s o h in
  (mInterfaces s = [] -> r = ((0, withPermission p s), [])) /\
  (mInterfaces s <> [] ->
     (getPermission (stateOf r) = p <-> Forall checkedOk (eventsOf r)) /\
     (retOf r = 0 <-> Forall checkedOk (eventsOf r)) /\
     (retOf r = 0 -> stateOf r = withPermission p s) /\
     (retOf r <> 0 ->
        (exists pre c, eventsOf r = pre ++ [(c, retOf r)] /\ isChecked c = true) /\
        stateOf r = s /\ getPermission (stateOf r) = mPermission s)).
Proof.
  intros Hp r. split.
  - intros Hi. subst r. unfold setPermission. rewrite decide_False by exact Hp.
    now rewrite Hi.
  - intros Hi.
    assert (He : StringSet.empty (mInterfaces s) = false)
      by (destruct (mInterfaces s); [contradiction | reflexivity]).
    destruct (setPermission_failFast p s o h Hp He) as (Hff & Hok & Hko).
    fold r in Hff, Hok, Hko.
    pose proof (failFast_zero_iff _ _ Hff) as Hz.
    split; [|split; [exact Hz|split; [exact Hok|]]].
    + rewrite <- Hz. split.
      * intros Hg. destruct (decide (retOf r = 0)) as [|Hr]; [assumption|].
        rewrite (Hko Hr) in Hg. unfold getPermission in Hg. congruence.
      * intros Hr. now rewrite (Hok Hr).
    + intros Hr. split; [|split].
      * destruct Hff as [[H0 _]|(_ & pre & c & Hev & Hc & _)]; [contradiction|].
        eauto.
      * exact (Hko Hr).
      * now rewrite (Hko Hr).
Qed.

Lemma setPermission_stores_permission_witness :
  let s := net100 PERMISSION_NONE false [eth0; wlan0] in
  let r := setPermission PERMISSION_SYSTEM s modifyFails [] in
  retOf r = -19 /\ stateOf r = s /\ getPermission (stateOf r) = PERMISSION_NONE.
Proof.
  intros s r.
  assert (Hp : PERMISSION_SYSTEM <> mPermission s) by discriminate.
  destruct (setPermission_stores_permission PERMISSION_SYSTEM s modifyFails [] Hp)
    as [_ Hne].
  assert (Hi : mInterfaces s <> []) by discriminate.
  assert (Hr : retOf r <> 0) by (vm_compute; discriminate).
  destruct (Hne Hi) as (_ & _ & _ & Hko).
  destruct (Hko Hr) as (_ & Hs & Hg).
  split; [reflexivity|]. split; [exact Hs | exact Hg].
Defined.

(** C2, as first stated, fails: a collaborator step fails (the diagnostics
    facility does not open, in both passes) and the permission is stored
    all the same. *)
Lemma permission_stored_despite_failed_step :
  let s := net100 PERMISSION_NONE false [eth0] in
  let r := setPermission PERMISSION_SYSTEM s sockDiagDown [] in
  mInterfaces s <> [] /\
  getPermission (stateOf r) = PERMISSION_SYSTEM /\
  Exists (fun e => ~ succeeds e.1 e.2) (eventsOf r).
Proof.
  split; [discriminate|]. split; [reflexivity|].
  vm_compute. left. intros H. now apply H.
Qed.

(** ** Order of the default-network calls *)

Lemma addThenRemove_nil (new old : Permission) : addThenRemove new old [].
Proof. intros k i r. split; intros H; destruct k; discriminate H. Qed.

Lemma addThenRemove_app (new old : Permission) (e1 e2 : list Event) :
  addThenRemove new old e1 -> addThenRemove new old e2 ->
  addThenRemove new old (e1 ++ e2).
Proof.
  intros H1 H2 k i r. split; intros Hk; apply lookup_app_Some in Hk as [Hk|[Hle Hk]].
  - destruct (proj1 (H1 k i r) Hk) as (k0 & -> & Ha & Hb).
    exists k0. split; [reflexivity|]. split; now apply lookup_app_l_Some.
  - destruct (proj1 (H2 _ i r) Hk) as (k0 & Hk0 & Ha & Hb).
    exists (length e1 + k0)%nat. split; [lia|].
    rewrite !lookup_app_r by lia.
    replace (length e1 + k0 - length e1)%nat with k0 by lia.
    replace (S (length e1 + k0) - length e1)%nat with (S k0) by lia. auto.
  - destruct (proj2 (H1 k i r) Hk) as (k0 & -> & Ha & Hb & Hc).
    exists k0. split; [reflexivity|]. repeat split; now apply lookup_app_l_Some.
  - destruct (proj2 (H2 _ i r) Hk) as (k0 & Hk0 & Ha & Hb & Hc).
    exists (length e1 + k0)%nat. split; [lia|].
    rewrite !lookup_app_r by lia.
    replace (length e1 + k0 - length e1)%nat with k0 by lia.
    replace (S (length e1 + k0) - length e1)%nat with (S k0) by lia.
    replace (S (S (length e1 + k0)) - length e1)%nat with (S (S k0)) by lia. auto.
Qed.

Lemma addThenRemove_none (new old : Permission) (evs : list Event) :
  Forall (fun e => isRemoveFromDefault e.1 = false) evs -> addThenRemove new old evs.
Proof.
  intros Hall k i r.
  split; intros Hk; apply list_elem_of_lookup_2 in Hk;
    rewrite Forall_forall in Hall; specialize (Hall _ Hk); discriminate Hall.
Qed.

Lemma defaultBody_addThenRemove (n : N) (i : string) (new old : Permission)
    (o : Oracle) (h : list Event) :
  let body := (ret ← addToDefault n i new;
               if bool_decide (ret = 0) then removeFromDefault n i old else mret ret) in
  addThenRemove new old (body o h).2.
Proof.
  intros body. subst body. run_step.
  destruct (addToDefault_cases n i new o h) as [(r & Hr & ->)|[(r & Hr & ->)| ->]].
  - rewrite bool_decide_false by exact Hr. run_step.
    apply addThenRemove_none. repeat constructor.
  - rewrite bool_decide_false by exact Hr. run_step.
    apply addThenRemove_none. repeat constructor.
  - run_step.
    destruct (removeFromDefault_cases n i old o
                (h ++ [(AddInterfaceToDefaultNetwork i new, 0); (AddFallthrough i new, 0)]))
      as [(r & Hr & ->)|[(r & Hr & ->)| ->]]; cbn [snd app];
      intros k j x; split; intros Hk;
      repeat (destruct k as [|k]; try discriminate Hk);
      injection Hk as <- <-; eauto 6.
Qed.

Lemma modifyLoop_no_removal (p : Permission) (s : PhysicalNetwork) (o : Oracle)
    (h : list Event) :
  Forall (fun e => isRemoveFromDefault e.1 = false) (modifyLoop p s o h).2.
Proof.
  apply forInterfaces_Forall. intros i h' _. run_step.
  case_ret; run_step; [|repeat constructor].
  pose proof (invalidateRouteCache_events i o
                (h' ++ [(ModifyPhysicalNetworkPermission (mNetId s) i (mPermission s) p
                           (mIsLocalNetwork s), 0)])) as Hr.
  destruct (invalidateRouteCache i o _) as [[] e]; cbn [fst snd] in *.
  run_step. rewrite app_nil_r. constructor; [reflexivity|].
  eapply Forall_impl; [exact Hr|]. intros [[] r]; cbn; congruence.
Qed.

Lemma destroySockets_no_removal (s : PhysicalNetwork) (p : Permission) (o : Oracle)
    (h : list Event) :
  Forall (fun e => isRemoveFromDefault e.1 = false)
    (destroySocketsLackingPermission s p o h).2.
Proof.
  eapply Forall_impl; [apply destroySockets_events|].
  intros [[] r]; cbn; congruence.
Qed.

Lemma defaultLoop_addThenRemove (p : Permission) (s : PhysicalNetwork) (o : Oracle)
    (h : list Event) :
  addThenRemove p (mPermission s) (defaultLoop p s o h).2.
Proof.
  unfold defaultLoop. destruct (mIsDefault s); [|apply addThenRemove_nil].
  apply (forInterfaces_rule (fun _ e => addThenRemove p (mPermission s) e)).
  - apply addThenRemove_nil.
  - intros e1 _ e2. apply addThenRemove_app.
  - intros i h' _. apply defaultBody_addThenRemove.
Qed.

(** When the loop over a default network's interfaces returns 0, every
    interface has had its fallthrough removed under the old permission. *)
Lemma defaultLoop_complete (p : Permission) (s : PhysicalNetwork) (o : Oracle)
    (h : list Event) :
  mIsDefault s = true -> (defaultLoop p s o h).1 = 0 ->
  forall i, i ∈ mInterfaces s ->
    (RemoveFallthrough i (mPermission s), 0) ∈ (defaultLoop p s o h).2.
Proof.
  intros Hd. unfold defaultLoop. rewrite Hd. clear Hd. revert h.
  induction (mInterfaces s) as [|j l IH]; intros h Hz i Hi.
  - inversion Hi.
  - cbn [forInterfaces] in *. revert Hz. run_step.
    destruct (addToDefault_cases (mNetId s) j p o h)
      as [(r & Hr & ->)|[(r & Hr & ->)| ->]].
    + rewrite bool_decide_false by exact Hr. run_step.
      rewrite bool_decide_false by exact Hr. run_step. cbn. congruence.
    + rewrite bool_decide_false by exact Hr. run_step.
      rewrite bool_decide_false by exact Hr. run_step. cbn. congruence.
    + run_step.
      destruct (removeFromDefault_cases (mNetId s) j (mPermission s) o
                  (h ++ [(AddInterfaceToDefaultNetwork j p, 0); (AddFallthrough j p, 0)]))
        as [(r & Hr & ->)|[(r & Hr & ->)| ->]].
      * rewrite bool_decide_false by exact Hr. run_step. cbn. congruence.
      * rewrite bool_decide_false by exact Hr. run_step. cbn. congruence.
      * run_step. specialize (IH ((h ++ [(AddInterfaceToDefaultNetwork j p, 0);
                                          (AddFallthrough j p, 0)] ++
                                    [(RemoveInterfaceFromDefaultNetwork j (mPermission s), 0);
                                     (RemoveFallthrough j (mPermission s), 0)]))).
        destruct (forInterfaces _ l o _) as [r2 e2]; cbn [fst snd] in *.
        intros Hz. apply elem_of_cons in Hi as [->|Hi].
        -- cbn [app]. do 3 right. left.
        -- cbn [app]. do 4 right. now apply IH.
Qed.

(** C3: setPermission on a default network.  For each interface, the
    default-network and fallthrough registrations under the new permission
    are made, and return 0, right before the deregistration under the old
    permission: add then remove, one interface at a time.  When
    setPermission returns 0 every interface has gone through both. *)
Theorem setPermission_add_then_remove (p : Permission) (s : PhysicalNetwork)
    (o : Oracle) (h : list Event) :
  mIsDefault s = true -> p <> mPermission s ->
  let r := setPermission p s o h in
  addThenRemove p (mPermission s) (eventsOf r) /\
  (retOf r = 0 ->
   forall i, i ∈ mInterfaces s ->
     exists k, eventsOf r !! S (S (S k)) = Some (RemoveFallthrough i (mPermission s), 0) /\
       eventsOf r !! k = Some (AddInterfaceToDefaultNetwork i p, 0) /\
       eventsOf r !! S k = Some (AddFallthrough i p, 0) /\
       eventsOf r !! S (S k) = Some (RemoveInterfaceFromDefaultNetwork i (mPermission s), 0)).
Proof.
  intros Hd Hp r.
  assert (Hboth : addThenRemove p (mPermission s) (eventsOf r) /\
                  (retOf r = 0 -> forall i, i ∈ mInterfaces s ->
                     (RemoveFallthrough i (mPermission s), 0) ∈ eventsOf r)).
  { subst r. unfold setPermission. rewrite decide_False by exact Hp.
    destruct (StringSet.empty (mInterfaces s)) eqn:He.
    { destruct (mInterfaces s) eqn:Hi; [|discriminate].
      split; [apply addThenRemove_nil|]. intros _ i Hin. inversion Hin. }
    fold (modifyLoop p s). fold (defaultLoop p s).
    unfold retOf, eventsOf. run_step.
    pose proof (destroySockets_no_removal s p o h) as H0.
    destruct (destroySocketsLackingPermission s p o h) as [r0 e0]; cbn [fst snd] in *.
    run_step.
    pose proof (modifyLoop_no_removal p s o (h ++ e0)) as H1.
    destruct (modifyLoop p s o (h ++ e0)) as [r1 e1]; cbn [fst snd] in *.
    run_step. case_ret; run_step.
    2:{ rewrite app_nil_r. split; [|intros Hz; contradiction].
        apply addThenRemove_none. now apply Forall_app. }
    subst r1.
    pose proof (defaultLoop_addThenRemove p s o ((h ++ e0) ++ e1)) as H2.
    pose proof (defaultLoop_complete p s o ((h ++ e0) ++ e1) Hd) as H2c.
    destruct (defaultLoop p s o ((h ++ e0) ++ e1)) as [r2 e2]; cbn [fst snd] in *.
    run_step. case_ret; run_step.
    2:{ rewrite app_nil_r. split; [|intros Hz; contradiction].
        repeat apply addThenRemove_app; auto using addThenRemove_none. }
    subst r2.
    pose proof (destroySockets_no_removal s p o (((h ++ e0) ++ e1) ++ e2)) as H3.
    destruct (destroySocketsLackingPermission s p o _) as [r3 e3]; cbn [fst snd] in *.
    run_step. rewrite app_nil_r. split.
    - repeat apply addThenRemove_app; auto using addThenRemove_none.
    - intros _ i Hi. rewrite !elem_of_app. right; right; left. now apply H2c. }
  destruct Hboth as [Hord Hall]. split; [exact Hord|].
  intros Hz i Hi. destruct (list_elem_of_lookup_1 _ _ (Hall Hz i Hi)) as [k Hk].
  destruct (proj2 (Hord k i 0) Hk) as (k0 & -> & Ha & Hb & Hc).
  exists k0. auto.
Qed.

Lemma setPermission_add_then_remove_witness :
  let s := net100 PERMISSION_NONE true [eth0; wlan0] in
  let evs := eventsOf (setPermission PERMISSION_SYSTEM s alwaysOk []) in
  evs !! 14%nat = Some (RemoveInterfaceFromDefaultNetwork eth0 PERMISSION_NONE, 0) /\
  exists k0, 14%nat = S (S k0) /\
    evs !! k0 = Some (AddInterfaceToDefaultNetwork eth0 PERMISSION_SYSTEM, 0) /\
    evs !! S k0 = Some (AddFallthrough eth0 PERMISSION_SYSTEM, 0).
Proof.
  intros s evs.
  assert (Hd : mIsDefault s = true) by reflexivity.
  assert (Hp : PERMISSION_SYSTEM <> mPermission s) by discriminate.
  destruct (setPermission_add_then_remove PERMISSION_SYSTEM s alwaysOk [] Hd Hp)
    as [Hord _].
  assert (Hk : evs !! 14%nat =
               Some (RemoveInterfaceFromDefaultNetwork eth0 PERMISSION_NONE, 0))
    by (vm_compute; reflexivity).
  split; [exact Hk|]. exact (proj1 (Hord 14%nat eth0 0) Hk).
Defined.

(** * Further properties of the code *)

(** ** The interface set keeps its invariant *)

Lemma stringLt_irrefl (x : string) : ~ stringLt x x.
Proof.
  unfold stringLt. intros H.
  pose proof (String.compare_antisym x x) as Ha. rewrite H in Ha. discriminate Ha.
Qed.

Lemma stringLt_le (x y : string) : stringLt x y -> String.le x y.
Proof. unfold stringLt, String.le, String.leb. now intros ->. Qed.

Lemma stringLt_trans (x y z : string) : stringLt x y -> stringLt y z -> stringLt x z.
Proof.
  intros Hxy Hyz.
  assert (Hle : String.le x z).
  { etransitivity; apply stringLt_le; eassumption. }
  unfold stringLt in *. unfold String.le, String.leb in Hle.
  destruct (String.compare x z) eqn:Hc; [|reflexivity|contradiction].
  apply String.compare_eq_iff in Hc as ->.
  pose proof (String.compare_antisym z y) as Ha. rewrite Hxy, Hyz in Ha.
  discriminate Ha.
Qed.

Lemma stringLt_flip (x y : string) : String.compare x y = Gt -> stringLt y x.
Proof.
  intros H. unfold stringLt. rewrite String.compare_antisym, H. reflexivity.
Qed.

Lemma wellFormed_NoDup (l : StringSet.t) : wellFormed l -> NoDup l.
Proof.
  induction 1 as [|x l Hs IH Hx]; constructor; [|exact IH].
  intros Hin. rewrite Forall_forall in Hx. exact (stringLt_irrefl x (Hx x Hin)).
Qed.

Lemma StringSet_insert_wellFormed (x : string) (l : StringSet.t) :
  wellFormed l -> wellFormed (StringSet.insert x l).
Proof.
  induction 1 as [|y l Hs IH Hy]; cbn [StringSet.insert].
  - repeat constructor.
  - destruct (String.compare x y) eqn:Hc.
    + now constructor.
    + constructor; [now constructor|]. constructor; [exact Hc|].
      eapply Forall_impl; [exact Hy|]. intros z Hz.
      eapply stringLt_trans; [exact Hc | exact Hz].
    + constructor; [exact IH|]. rewrite Forall_forall. intros z Hz.
      apply StringSet_elem_of_insert in Hz as [->|Hz].
      * now apply stringLt_flip.
      * rewrite Forall_forall in Hy. now apply Hy.
Qed.

Lemma StringSet_erase_wellFormed (x : string) (l : StringSet.t) :
  wellFormed l -> wellFormed (StringSet.erase x l).
Proof.
  induction 1 as [|y l Hs IH Hy]; cbn [StringSet.erase]; [constructor|].
  destruct (decide (y = x)); [exact IH|]. constructor; [exact IH|].
  rewrite Forall_forall in *. intros z Hz.
  apply StringSet_elem_of_erase in Hz as [Hz _]. now apply Hy.
Qed.

Lemma StringSet_erase_absent (x : string) (l : StringSet.t) :
  x ∉ l -> StringSet.erase x l = l.
Proof.
  induction l as [|y l IH]; intros Hx; cbn [StringSet.erase]; [reflexivity|].
  rewrite not_elem_of_cons in Hx. destruct Hx as [Hne Hx].
  rewrite decide_False by congruence. now rewrite IH.
Qed.

Lemma StringSet_erase_insert (x : string) (l : StringSet.t) :
  x ∉ l -> StringSet.erase x (StringSet.insert x l) = l.
Proof.
  induction l as [|y l IH]; intros Hx; cbn [StringSet.insert StringSet.erase].
  - now rewrite decide_True.
  - rewrite not_elem_of_cons in Hx. destruct Hx as [Hne Hx].
    destruct (String.compare x y) eqn:Hc.
    + apply String.compare_eq_iff in Hc. contradiction.
    + cbn [StringSet.erase]. rewrite decide_True by reflexivity.
      rewrite decide_False by congruence. now rewrite StringSet_erase_absent.
    + cbn [StringSet.erase]. rewrite decide_False by congruence. now rewrite IH.
Qed.

(** The states addInterface and removeInterface can end in. *)
Lemma addInterface_outcome (i : string) (s : PhysicalNetwork) (o : Oracle)
    (h : list Event) :
  let r := addInterface i s o h in
  (retOf r = 0 /\ (i ∈ mInterfaces s) /\ stateOf r = s /\ eventsOf r = []) \/
  (retOf r = 0 /\ (i ∉ mInterfaces s) /\
   stateOf r = withInterfaces (StringSet.insert i (mInterfaces s)) s) \/
  (retOf r <> 0 /\ (i ∉ mInterfaces s) /\ stateOf r = s).
Proof.
  intros r. subst r. unfold retOf, stateOf, eventsOf.
  unfold addInterface, hasInterface, StringSet.find.
  destruct (bool_decide_reflect (i ∈ mInterfaces s)) as [Hi|Hi].
  { left. run_step. auto. }
  right. run_step. case_ret; run_step; [|right; auto].
  destruct (mIsDefault s); run_step; [|left; auto].
  destruct (addToDefault_cases (mNetId s) i (mPermission s) o
              (h ++ [(AddInterfaceToPhysicalNetwork (mNetId s) i (mPermission s)
                        (mUidRangeMap s) (mIsLocalNetwork s), 0)]))
    as [(x & Hx & ->)|[(x & Hx & ->)| ->]]; run_step.
  - rewrite bool_decide_false by exact Hx. run_step. right; auto.
  - rewrite bool_decide_false by exact Hx. run_step. right; auto.
  - left; auto.
Qed.

Lemma removeInterface_outcome (i : string) (s : PhysicalNetwork) (o : Oracle)
    (h : list Event) :
  let r := removeInterface i s o h in
  (retOf r = 0 /\ (i ∉ mInterfaces s) /\ stateOf r = s /\ eventsOf r = []) \/
  (retOf r = 0 /\ (i ∈ mInterfaces s) /\
   stateOf r = withInterfaces (StringSet.erase i (mInterfaces s)) s) \/
  (retOf r <> 0 /\ (i ∈ mInterfaces s) /\ stateOf r = s).
Proof.
  intros r. subst r. unfold retOf, stateOf, eventsOf.
  unfold removeInterface, hasInterface, StringSet.find.
  destruct (bool_decide_reflect (i ∈ mInterfaces s)) as [Hi|Hi]; cbn [negb].
  2:{ left. run_step. auto. }
  right. destruct (mIsDefault s); run_step.
  - destruct (removeFromDefault_cases (mNetId s) i (mPermission s) o h)
      as [(x & Hx & ->)|[(x & Hx & ->)| ->]]; run_step.
    + rewrite bool_decide_false by exact Hx. run_step. right; auto.
    + rewrite bool_decide_false by exact Hx. run_step. right; auto.
    + case_ret; run_step; [left|right]; auto.
  - case_ret; run_step; [left|right]; auto.
Qed.

(** X1: addInterface and removeInterface keep the interface set strictly
    increasing, hence free of duplicates, whatever the collaborators
    answer. *)
Theorem interfaces_stay_wellFormed (i : string) (s : PhysicalNetwork) (o : Oracle)
    (h : list Event) :
  wellFormed (mInterfaces s) ->
  wellFormed (mInterfaces (stateOf (addInterface i s o h))) /\
  NoDup (mInterfaces (stateOf (addInterface i s o h))) /\
  wellFormed (mInterfaces (stateOf (removeInterface i s o h))) /\
  NoDup (mInterfaces (stateOf (removeInterface i s o h))).
Proof.
  intros Hw.
  assert (Ha : wellFormed (mInterfaces (stateOf (addInterface i s o h)))).
  { destruct (addInterface_outcome i s o h)
      as [(_ & _ & -> & _)|[(_ & _ & ->)|(_ & _ & ->)]]; auto.
    now apply StringSet_insert_wellFormed. }
  assert (Hr : wellFormed (mInterfaces (stateOf (removeInterface i s o h)))).
  { destruct (removeInterface_outcome i s o h)
      as [(_ & _ & -> & _)|[(_ & _ & ->)|(_ & _ & ->)]]; auto.
    now apply StringSet_erase_wellFormed. }
  auto using wellFormed_NoDup.
Qed.

Lemma interfaces_stay_wellFormed_witness :
  mInterfaces (stateOf (addInterface eth0 (net100 PERMISSION_NONE false [wlan0])
                          alwaysOk [])) = [eth0; wlan0] /\
  NoDup (mInterfaces (stateOf (addInterface eth0 (net100 PERMISSION_NONE false [wlan0])
                                 alwaysOk []))).
Proof.
  split; [reflexivity|].
  refine (proj1 (proj2 (interfaces_stay_wellFormed eth0
                          (net100 PERMISSION_NONE false [wlan0]) alwaysOk [] _))).
  repeat constructor.
Defined.

(** X2: when addInterface returns 0 the name is in the set afterwards, and
    the set otherwise has the names it had. *)
Theorem addInterface_success_membership (i : string) (s : PhysicalNetwork)
    (o : Oracle) (h : list Event) :
  let r := addInterface i s o h in
  retOf r = 0 ->
  hasInterface i (stateOf r) = true /\
  forall y, y ∈ mInterfaces (stateOf r) <-> y = i \/ y ∈ mInterfaces s.
Proof.
  intros r Hz.
  assert (Hm : forall y, y ∈ mInterfaces (stateOf r) <-> y = i \/ y ∈ mInterfaces s).
  { destruct (addInterface_outcome i s o h)
      as [(_ & Hi & Hs & _)|[(_ & _ & Hs)|(Hr & _)]]; [| |contradiction];
      fold r in Hs; rewrite Hs; intros y.
    - split; [auto|]. intros [->|Hy]; assumption.
    - apply StringSet_elem_of_insert. }
  split; [|exact Hm].
  unfold hasInterface, StringSet.find. apply bool_decide_eq_true. apply Hm. now left.
Qed.

Lemma addInterface_success_membership_witness :
  hasInterface wlan0
    (stateOf (addInterface wlan0 (net100 PERMISSION_NONE true [eth0]) alwaysOk [])) = true.
Proof.
  exact (proj1 (addInterface_success_membership wlan0
                  (net100 PERMISSION_NONE true [eth0]) alwaysOk [] eq_refl)).
Defined.

(** X3: when removeInterface returns 0 the name is no longer in the set,
    and every other name is kept. *)
Theorem removeInterface_success_membership (i : string) (s : PhysicalNetwork)
    (o : Oracle) (h : list Event) :
  let r := removeInterface i s o h in
  retOf r = 0 ->
  hasInterface i (stateOf r) = false /\
  forall y, y ∈ mInterfaces (stateOf r) <-> y ∈ mInterfaces s /\ y <> i.
Proof.
  intros r Hz.
  assert (Hm : forall y, y ∈ mInterfaces (stateOf r) <-> y ∈ mInterfaces s /\ y <> i).
  { destruct (removeInterface_outcome i s o h)
      as [(_ & Hi & Hs & _)|[(_ & _ & Hs)|(Hr & _)]]; [| |contradiction];
      fold r in Hs; rewrite Hs; intros y.
    - split; [|tauto]. intros Hy. split; [exact Hy|]. congruence.
    - apply StringSet_elem_of_erase. }
  split; [|exact Hm].
  unfold hasInterface, StringSet.find. apply bool_decide_eq_false.
  rewrite Hm. tauto.
Qed.

Lemma removeInterface_success_membership_witness :
  hasInterface eth0
    (stateOf (removeInterface eth0 (net100 PERMISSION_NONE true [eth0; wlan0])
                alwaysOk [])) = false.
Proof.
  exact (proj1 (removeInterface_success_membership eth0
                  (net100 PERMISSION_NONE true [eth0; wlan0]) alwaysOk [] eq_refl)).
Defined.

(** ** Attaching and detaching, composed *)

Lemma addInterface_allSucceed (i : string) (s : PhysicalNetwork) (o : Oracle)
    (h : list Event) :
  allSucceed o -> i ∉ mInterfaces s ->
  addInterface i s o h =
    ((0, withInterfaces (StringSet.insert i (mInterfaces s)) s),
     (AddInterfaceToPhysicalNetwork (mNetId s) i (mPermission s) (mUidRangeMap s)
        (mIsLocalNetwork s), 0)
     :: (if mIsDefault s
         then [(AddInterfaceToDefaultNetwork i (mPermission s), 0);
               (AddFallthrough i (mPermission s), 0)]
         else [])).
Proof.
  intros Ho Hi. unfold addInterface, hasInterface, StringSet.find.
  rewrite bool_decide_false by exact Hi. run_step.
  rewrite !(allSucceed_zero o) by (exact Ho || discriminate). run_step.
  destruct (mIsDefault s); run_step.
  - rewrite addToDefault_allSucceed by exact Ho. run_step. reflexivity.
  - reflexivity.
Qed.

Lemma removeInterface_allSucceed (i : string) (s : PhysicalNetwork) (o : Oracle)
    (h : list Event) :
  allSucceed o -> i ∈ mInterfaces s ->
  removeInterface i s o h =
    ((0, withInterfaces (StringSet.erase i (mInterfaces s)) s),
     (if mIsDefault s
      then [(RemoveInterfaceFromDefaultNetwork i (mPermission s), 0);
            (RemoveFallthrough i (mPermission s), 0)]
      else [])
     ++ [(RemoveInterfaceFromPhysicalNetwork (mNetId s) i (mPermission s)
            (mUidRangeMap s) (mIsLocalNetwork s), 0)]).
Proof.
  intros Ho Hi. unfold removeInterface, hasInterface, StringSet.find.
  rewrite bool_decide_true by exact Hi. cbn [negb].
  destruct (mIsDefault s); run_step.
  - rewrite removeFromDefault_allSucceed by exact Ho. run_step.
    rewrite !(allSucceed_zero o) by (exact Ho || discriminate). run_step.
    reflexivity.
  - rewrite !(allSucceed_zero o) by (exact Ho || discriminate). run_step.
    reflexivity.
Qed.

(** X4: with collaborators that succeed, attaching an interface that was
    not there and detaching it again returns 0 twice and gives back the
    object as it was; detaching undoes the calls of attaching in reverse
    order (default network first, physical network last). *)
Theorem addInterface_removeInterface_roundtrip (i : string) (s : PhysicalNetwork)
    (o : Oracle) (h : list Event) :
  allSucceed o -> i ∉ mInterfaces s ->
  let r1 := addInterface i s o h in
  let r2 := removeInterface i (stateOf r1) o (h ++ eventsOf r1) in
  retOf r1 = 0 /\ retOf r2 = 0 /\ stateOf r2 = s /\
  map fst (eventsOf r1 ++ eventsOf r2) =
    [AddInterfaceToPhysicalNetwork (mNetId s) i (mPermission s) (mUidRangeMap s)
       (mIsLocalNetwork s)]
    ++ (if mIsDefault s then addSteps s i ++ removeSteps s i else [])
    ++ [RemoveInterfaceFromPhysicalNetwork (mNetId s) i (mPermission s) (mUidRangeMap s)
          (mIsLocalNetwork s)].
Proof.
  intros Ho Hi r1 r2. subst r2 r1.
  rewrite (addInterface_allSucceed i s o h Ho Hi).
  unfold stateOf, eventsOf, retOf. cbn [fst snd].
  rewrite removeInterface_allSucceed;
    [|exact Ho|cbn [mInterfaces withInterfaces]; apply StringSet_elem_of_insert; now left].
  cbn [fst snd mInterfaces withInterfaces mIsDefault mPermission mNetId mUidRangeMap
       mIsLocalNetwork].
  rewrite StringSet_erase_insert by exact Hi.
  split; [reflexivity|]. split; [reflexivity|]. split.
  - destruct s; reflexivity.
  - destruct (mIsDefault s); reflexivity.
Qed.

Lemma addInterface_removeInterface_roundtrip_witness :
  let s := net100 PERMISSION_NETWORK true [eth0] in
  stateOf (removeInterface wlan0 (stateOf (addInterface wlan0 s alwaysOk []))
             alwaysOk ([] ++ eventsOf (addInterface wlan0 s alwaysOk []))) = s.
Proof.
  intros s.
  assert (Hi : wlan0 ∉ mInterfaces s).
  { vm_compute. intros H. inversion H as [|? ? ? H']. inversion H'. }
  exact (proj1 (proj2 (proj2 (addInterface_removeInterface_roundtrip wlan0 s alwaysOk []
                                alwaysOk_allSucceed Hi)))).
Defined.

(** The four ways addInterface can run on a default network. *)
Lemma addInterface_default_cases (i : string) (s : PhysicalNetwork) (o : Oracle)
    (h : list Event) :
  mIsDefault s = true -> i ∉ mInterfaces s ->
  let c1 := AddInterfaceToPhysicalNetwork (mNetId s) i (mPermission s)
              (mUidRangeMap s) (mIsLocalNetwork s) in
  let c2 := AddInterfaceToDefaultNetwork i (mPermission s) in
  let c3 := AddFallthrough i (mPermission s) in
  (exists r, r <> 0 /\ addInterface i s o h = ((r, s), [(c1, r)])) \/
  (exists r, r <> 0 /\ addInterface i s o h = ((r, s), [(c1, 0); (c2, r)])) \/
  (exists r, r <> 0 /\ addInterface i s o h = ((r, s), [(c1, 0); (c2, 0); (c3, r)])) \/
  addInterface i s o h =
    ((0, withInterfaces (StringSet.insert i (mInterfaces s)) s),
     [(c1, 0); (c2, 0); (c3, 0)]).
Proof.
  intros Hd Hi c1 c2 c3. unfold addInterface, hasInterface, StringSet.find.
  rewrite bool_decide_false by exact Hi. rewrite Hd. fold c1. run_step.
  case_ret; run_step; [|left; eauto].
  destruct (addToDefault_cases (mNetId s) i (mPermission s) o (h ++ [(c1, 0)]))
    as [(x & Hx & ->)|[(x & Hx & ->)| ->]]; run_step.
  - rewrite bool_decide_false by exact Hx. run_step. right; left. eauto.
  - rewrite bool_decide_false by exact Hx. run_step. right; right; left. eauto.
  - right; right; right. reflexivity.
Qed.

(** X5: addInterface of a new name on a default network.  The
    physical-network registration is always the first call, with the
    current permission and UID-range map; the default-network registration
    and the fallthrough follow only after it returned 0; the name is
    inserted exactly when all three calls succeeded, and otherwise the
    failing call's result is returned and the object is unchanged. *)
Theorem addInterface_order_and_insert (i : string) (s : PhysicalNetwork) (o : Oracle)
    (h : list Event) :
  mIsDefault s = true -> i ∉ mInterfaces s ->
  let r := addInterface i s o h in
  let c1 := AddInterfaceToPhysicalNetwork (mNetId s) i (mPermission s)
              (mUidRangeMap s) (mIsLocalNetwork s) in
  let c2 := AddInterfaceToDefaultNetwork i (mPermission s) in
  let c3 := AddFallthrough i (mPermission s) in
  (exists x, eventsOf r !! 0%nat = Some (c1, x)) /\
  (forall k x, eventsOf r !! k = Some (c2, x) ->
     k = 1%nat /\ eventsOf r !! 0%nat = Some (c1, 0)) /\
  (forall k x, eventsOf r !! k = Some (c3, x) ->
     k = 2%nat /\ eventsOf r !! 0%nat = Some (c1, 0) /\
     eventsOf r !! 1%nat = Some (c2, 0)) /\
  (Forall (fun e => succeeds e.1 e.2) (eventsOf r) ->
     retOf r = 0 /\ length (eventsOf r) = 3%nat /\
     stateOf r = withInterfaces (StringSet.insert i (mInterfaces s)) s) /\
  (~ Forall (fun e => succeeds e.1 e.2) (eventsOf r) ->
     retOf r <> 0 /\ stateOf r = s /\ exists c, last (eventsOf r) = Some (c, retOf r)).
Proof.
  intros Hd Hi r c1 c2 c3. subst r. unfold eventsOf, retOf, stateOf.
  destruct (addInterface_default_cases i s o h Hd Hi)
    as [(x & Hx & ->)|[(x & Hx & ->)|[(x & Hx & ->)| ->]]];
    fold c1 c2 c3; cbn [fst snd].
  - split; [eauto|]. split; [|split; [|split]].
    + intros [|[|k]] y Hk; discriminate.
    + intros [|[|k]] y Hk; discriminate.
    + intros Hall. inversion Hall as [|? ? H1 _]; subst. cbn in H1. contradiction.
    + eauto.
  - split; [eauto|]. split; [|split; [|split]].
    + intros [|[|[|k]]] y Hk; try discriminate. auto.
    + intros [|[|[|k]]] y Hk; discriminate.
    + intros Hall. inversion Hall as [|? ? _ H2]; subst.
      inversion H2 as [|? ? H1 _]; subst. cbn in H1. contradiction.
    + eauto.
  - split; [eauto|]. split; [|split; [|split]].
    + intros [|[|[|k]]] y Hk; try discriminate. auto.
    + intros [|[|[|k]]] y Hk; try discriminate. auto.
    + intros Hall. inversion Hall as [|? ? _ H2]; subst.
      inversion H2 as [|? ? _ H3]; subst.
      inversion H3 as [|? ? H1 _]; subst. cbn in H1. contradiction.
    + eauto.
  - split; [eauto|]. split; [|split; [|split]].
    + intros [|[|[|k]]] y Hk; try discriminate. auto.
    + intros [|[|[|k]]] y Hk; try discriminate. auto.
    + auto.
    + intros Hn. exfalso. apply Hn. repeat constructor.
Qed.

Lemma addInterface_order_and_insert_witness :
  let s := net100 PERMISSION_NETWORK true [eth0; wlan0] in
  let r := addInterface "rmnet0" s alwaysOk [] in
  eventsOf r !! 2%nat = Some (AddFallthrough "rmnet0" PERMISSION_NETWORK, 0) /\
  eventsOf r !! 0%nat =
    Some (AddInterfaceToPhysicalNetwork 100 "rmnet0" PERMISSION_NETWORK ∅ false, 0) /\
  eventsOf r !! 1%nat = Some (AddInterfaceToDefaultNetwork "rmnet0" PERMISSION_NETWORK, 0).
Proof.
  intros s r.
  assert (Hd : mIsDefault s = true) by reflexivity.
  assert (Hi : ("rmnet0" : string) ∉ mInterfaces s).
  { vm_compute. intros H. inversion H as [|? ? ? H']; subst.
    inversion H' as [|? ? ? H'']. inversion H''. }
  destruct (addInterface_order_and_insert "rmnet0" s alwaysOk [] Hd Hi)
    as (_ & _ & Hord & _).
  assert (Hk : eventsOf r !! 2%nat = Some (AddFallthrough "rmnet0" PERMISSION_NETWORK, 0))
    by (vm_compute; reflexivity).
  split; [exact Hk|]. exact (proj2 (Hord 2%nat 0 Hk)).
Defined.

(** ** Loops follow the interface order *)

(** If every run of the body makes a prefix of the calls [script i], and all
    of them when it returns 0, the loop makes a prefix of the scripts of the
    interfaces in order, and all of them when it returns 0. *)
Lemma forInterfaces_script (script : string -> list Call) (body : string -> M Z)
    (l : list string) (o : Oracle) :
  (forall i h, map fst (body i o h).2 `prefix_of` script i /\
               ((body i o h).1 = 0 -> map fst (body i o h).2 = script i)) ->
  forall h,
    map fst (forInterfaces body l o h).2 `prefix_of` concat (map script l) /\
    ((forInterfaces body l o h).1 = 0 ->
     map fst (forInterfaces body l o h).2 = concat (map script l)).
Proof.
  intros Hbody. induction l as [|i l IH]; intros h; cbn [forInterfaces map concat].
  - split; [apply prefix_nil | reflexivity].
  - run_step. destruct (Hbody i h) as [Hp Hz].
    destruct (body i o h) as [r e1]; cbn [fst snd] in *.
    case_ret.
    + subst r. specialize (Hz eq_refl). destruct (IH (h ++ e1)) as [Hp2 Hz2].
      destruct (forInterfaces body l o (h ++ e1)) as [r2 e2]; cbn [fst snd] in *.
      rewrite map_app, Hz. split; [now apply prefix_app|].
      intros H0. now rewrite (Hz2 H0).
    + run_step. rewrite app_nil_r. split; [now apply prefix_app_r|].
      intros H0. contradiction.
Qed.

Lemma tested_results (evs : list Event) :
  Forall (fun e => isSockDiag e.1 = false /\ isRoute e.1 = false) evs ->
  (Forall checkedOk evs <-> Forall (fun e => e.2 = 0) evs).
Proof.
  intros Hc. rewrite !Forall_forall in *. split; intros H e He.
  - apply (H e He). unfold isChecked. destruct (Hc e He) as [-> ->]. reflexivity.
  - intros _. now apply H.
Qed.

Lemma addToDefault_script (n : N) (s : PhysicalNetwork) (i : string) (o : Oracle)
    (h : list Event) :
  map fst (addToDefault n i (mPermission s) o h).2 `prefix_of` addSteps s i /\
  ((addToDefault n i (mPermission s) o h).1 = 0 ->
   map fst (addToDefault n i (mPermission s) o h).2 = addSteps s i).
Proof.
  destruct (addToDefault_cases n i (mPermission s) o h)
    as [(r & Hr & ->)|[(r & Hr & ->)| ->]]; cbn [fst snd map]; unfold addSteps.
  - split; [|contradiction]. now exists [AddFallthrough i (mPermission s)].
  - split; [|contradiction]. reflexivity.
  - split; reflexivity.
Qed.

Lemma removeFromDefault_script (n : N) (s : PhysicalNetwork) (i : string) (o : Oracle)
    (h : list Event) :
  map fst (removeFromDefault n i (mPermission s) o h).2 `prefix_of` removeSteps s i /\
  ((removeFromDefault n i (mPermission s) o h).1 = 0 ->
   map fst (removeFromDefault n i (mPermission s) o h).2 = removeSteps s i).
Proof.
  destruct (removeFromDefault_cases n i (mPermission s) o h)
    as [(r & Hr & ->)|[(r & Hr & ->)| ->]]; cbn [fst snd map]; unfold removeSteps.
  - split; [|contradiction]. now exists [RemoveFallthrough i (mPermission s)].
  - split; [|contradiction]. reflexivity.
  - split; reflexivity.
Qed.

(** X6: addAsDefault on a network that is not the default.  Its calls are
    the default-network registration and then the fallthrough of each
    interface, in interface order, up to the first call that fails; nothing
    is rolled back (no removal call is ever made).  It returns 0 exactly
    when every call returned 0, and only then sets isDefault; otherwise it
    returns the failing call's result and leaves the object as it was. *)
Theorem addAsDefault_fail_fast (s : PhysicalNetwork) (o : Oracle) (h : list Event) :
  mIsDefault s = false ->
  let r := addAsDefault s o h in
  map fst (eventsOf r) `prefix_of` concat (map (addSteps s) (mInterfaces s)) /\
  (retOf r = 0 <-> Forall (fun e => e.2 = 0) (eventsOf r)) /\
  (retOf r = 0 ->
     map fst (eventsOf r) = concat (map (addSteps s) (mInterfaces s)) /\
     stateOf r = withIsDefault true s) /\
  (retOf r <> 0 ->
     stateOf r = s /\
     exists pre c, eventsOf r = pre ++ [(c, retOf r)] /\ Forall (fun e => e.2 = 0) pre).
Proof.
  intros Hd r. subst r. unfold addAsDefault, retOf, eventsOf, stateOf.
  rewrite Hd. run_step.
  pose proof (forInterfaces_script (addSteps s)
                (fun i => addToDefault (mNetId s) i (mPermission s)) (mInterfaces s) o
                (fun i h' => addToDefault_script (mNetId s) s i o h') h) as [Hp Hz].
  pose proof (forInterfaces_rule failFast failFast_nil failFast_seq
                (fun i => addToDefault (mNetId s) i (mPermission s)) (mInterfaces s) o
                (fun i h' _ => addToDefault_failFast (mNetId s) i (mPermission s) o h') h)
    as Hff.
  pose proof (forInterfaces_Forall _
                (fun i => addToDefault (mNetId s) i (mPermission s)) (mInterfaces s) o
                (fun i h' _ => addToDefault_events (mNetId s) i (mPermission s) o h') h)
    as Hc.
  destruct (forInterfaces _ (mInterfaces s) o h) as [r e]; cbn [fst snd] in *.
  pose proof (failFast_zero_iff _ _ Hff) as Hiff. rewrite (tested_results e Hc) in Hiff.
  case_ret; run_step; rewrite app_nil_r.
  - subst r. split; [exact Hp|]. split; [exact Hiff|]. split; [auto|].
    intros Hn. contradiction.
  - split; [exact Hp|]. split; [exact Hiff|]. split; [intros H0; contradiction|].
    intros _. split; [reflexivity|].
    destruct Hff as [[H0 _]|(_ & pre & c & -> & _ & Hpre)]; [contradiction|].
    exists pre, c. split; [reflexivity|].
    apply Forall_app in Hc as [Hc _]. now apply tested_results.
Qed.

Lemma addAsDefault_fail_fast_witness :
  let s := net100 PERMISSION_NETWORK false [eth0; wlan0] in
  let r := addAsDefault s fallthroughFails [] in
  retOf r = -16 /\ stateOf r = s /\
  map fst (eventsOf r) `prefix_of` concat (map (addSteps s) [eth0; wlan0]).
Proof.
  intros s r.
  destruct (addAsDefault_fail_fast s fallthroughFails [] eq_refl) as (Hp & _ & _ & Hko).
  assert (Hr : retOf r <> 0) by (vm_compute; discriminate).
  split; [reflexivity|]. split; [exact (proj1 (Hko Hr)) | exact Hp].
Defined.

(** X7: removeAsDefault on the default network.  Its calls are the
    default-network removal and then the fallthrough removal of each
    interface, in interface order, up to the first call that fails; it
    returns 0 exactly when every call returned 0, and only then clears
    isDefault; otherwise it returns the failing call's result and leaves the
    object as it was. *)
Theorem removeAsDefault_fail_fast (s : PhysicalNetwork) (o : Oracle) (h : list Event) :
  mIsDefault s = true ->
  let r := removeAsDefault s o h in
  map fst (eventsOf r) `prefix_of` concat (map (removeSteps s) (mInterfaces s)) /\
  (retOf r = 0 <-> Forall (fun e => e.2 = 0) (eventsOf r)) /\
  (retOf r = 0 ->
     map fst (eventsOf r) = concat (map (removeSteps s) (mInterfaces s)) /\
     stateOf r = withIsDefault false s) /\
  (retOf r <> 0 ->
     stateOf r = s /\
     exists pre c, eventsOf r = pre ++ [(c, retOf r)] /\ Forall (fun e => e.2 = 0) pre).
Proof.
  intros Hd r. subst r. unfold removeAsDefault, retOf, eventsOf, stateOf.
  rewrite Hd. cbn [negb]. run_step.
  pose proof (forInterfaces_script (removeSteps s)
                (fun i => removeFromDefault (mNetId s) i (mPermission s)) (mInterfaces s) o
                (fun i h' => removeFromDefault_script (mNetId s) s i o h') h) as [Hp Hz].
  pose proof (forInterfaces_rule failFast failFast_nil failFast_seq
                (fun i => removeFromDefault (mNetId s) i (mPermission s)) (mInterfaces s) o
                (fun i h' _ => removeFromDefault_failFast (mNetId s) i (mPermission s) o h')
                h) as Hff.
  pose proof (forInterfaces_Forall _
                (fun i => removeFromDefault (mNetId s) i (mPermission s)) (mInterfaces s) o
                (fun i h' _ => removeFromDefault_events (mNetId s) i (mPermission s) o h')
                h) as Hc.
  destruct (forInterfaces _ (mInterfaces s) o h) as [r e]; cbn [fst snd] in *.
  pose proof (failFast_zero_iff _ _ Hff) as Hiff. rewrite (tested_results e Hc) in Hiff.
  case_ret; run_step; rewrite app_nil_r.
  - subst r. split; [exact Hp|]. split; [exact Hiff|]. split; [auto|].
    intros Hn. contradiction.
  - split; [exact Hp|]. split; [exact Hiff|]. split; [intros H0; contradiction|].
    intros _. split; [reflexivity|].
    destruct Hff as [[H0 _]|(_ & pre & c & -> & _ & Hpre)]; [contradiction|].
    exists pre, c. split; [reflexivity|].
    apply Forall_app in Hc as [Hc _]. now apply tested_results.
Qed.

Lemma removeAsDefault_fail_fast_witness :
  let s := net100 PERMISSION_NETWORK true [eth0; wlan0] in
  let r := removeAsDefault s alwaysOk [] in
  map fst (eventsOf r) = concat (map (removeSteps s) [eth0; wlan0]) /\
  stateOf r = withIsDefault false s.
Proof.
  intros s r.
  destruct (removeAsDefault_fail_fast s alwaysOk [] eq_refl) as (_ & _ & Hok & _).
  exact (Hok eq_refl).
Defined.

(** ** The calls of a permission change *)

Lemma filter_calls_all (evs : list Event) :
  Forall (fun e => isSockDiag e.1 = false) evs ->
  filter (fun c => isSockDiag c = false) (map fst evs) = map fst evs.
Proof.
  induction 1 as [|e evs He _ IH]; [reflexivity|].
  cbn [map]. rewrite filter_cons_True by exact He. now rewrite IH.
Qed.

Lemma filter_calls_none (evs : list Event) :
  Forall (fun e => isSockDiag e.1 = true) evs ->
  filter (fun c => isSockDiag c = false) (map fst evs) = [].
Proof.
  induction 1 as [|e evs He _ IH]; [reflexivity|].
  cbn [map]. rewrite filter_cons_False by (rewrite He; discriminate). exact IH.
Qed.

Lemma modifyLoop_script (p : Permission) (s : PhysicalNetwork) (o : Oracle)
    (h : list Event) :
  map fst (modifyLoop p s o h).2 `prefix_of`
    concat (map (permissionSteps p s) (mInterfaces s)) /\
  ((modifyLoop p s o h).1 = 0 ->
   map fst (modifyLoop p s o h).2 = concat (map (permissionSteps p s) (mInterfaces s))).
Proof.
  apply (forInterfaces_script (permissionSteps p s)). intros i h'.
  run_step. case_ret; run_step.
  - unfold invalidateRouteCache. run_step. cbn [map fst app]. unfold permissionSteps.
    split; reflexivity.
  - cbn [map fst]. unfold permissionSteps. split; [|contradiction].
    eexists. reflexivity.
Qed.

Lemma defaultLoop_script (p : Permission) (s : PhysicalNetwork) (o : Oracle)
    (h : list Event) :
  let script := if mIsDefault s
                then concat (map (defaultSteps p s) (mInterfaces s)) else [] in
  map fst (defaultLoop p s o h).2 `prefix_of` script /\
  ((defaultLoop p s o h).1 = 0 -> map fst (defaultLoop p s o h).2 = script).
Proof.
  unfold defaultLoop. destruct (mIsDefault s); [|split; reflexivity].
  apply (forInterfaces_script (defaultSteps p s)). intros i h'. run_step.
  destruct (addToDefault_cases (mNetId s) i p o h')
    as [(r & Hr & ->)|[(r & Hr & ->)| ->]]; run_step.
  - rewrite bool_decide_false by exact Hr. run_step. cbn [map fst app].
    split; [|contradiction]. eexists. reflexivity.
  - rewrite bool_decide_false by exact Hr. run_step. cbn [map fst app].
    split; [|contradiction]. eexists. reflexivity.
  - destruct (removeFromDefault_cases (mNetId s) i (mPermission s) o
                (h' ++ [(AddInterfaceToDefaultNetwork i p, 0); (AddFallthrough i p, 0)]))
      as [(r & Hr & ->)|[(r & Hr & ->)| ->]]; cbn [map fst snd app];
      unfold defaultSteps.
    + split; [|contradiction]. eexists. reflexivity.
    + split; [|contradiction]. reflexivity.
    + split; reflexivity.
Qed.

(** X8: the calls of setPermission for a new permission, the
    socket-diagnostics calls left aside.  They are, in interface order, the
    permission change of each interface followed by its two throw-route
    pairs (IPv4 then IPv6, add then remove), and after all of those, on a
    default network only, the add-then-remove default-network calls of each
    interface; the run stops within this script at the first tested call
    that fails, and goes through all of it when 0 is returned. *)
Theorem setPermission_script (p : Permission) (s : PhysicalNetwork) (o : Oracle)
    (h : list Event) :
  p <> mPermission s ->
  let r := setPermission p s o h in
  let script :=
    concat (map (permissionSteps p s) (mInterfaces s)) ++
    (if mIsDefault s then concat (map (defaultSteps p s) (mInterfaces s)) else []) in
  let calls := filter (fun c => isSockDiag c = false) (map fst (eventsOf r)) in
  calls `prefix_of` script /\ (retOf r = 0 -> calls = script).
Proof.
  intros Hp r script calls. subst calls script r.
  unfold setPermission. rewrite decide_False by exact Hp.
  destruct (StringSet.empty (mInterfaces s)) eqn:He.
  { destruct (mInterfaces s); [|discriminate]. unfold eventsOf. cbn.
    destruct (mIsDefault s); split; reflexivity. }
  fold (modifyLoop p s). fold (defaultLoop p s).
  unfold retOf, eventsOf. run_step.
  pose proof (destroySockets_events s p o h) as H0.
  destruct (destroySocketsLackingPermission s p o h) as [r0 e0]; cbn [fst snd] in *.
  run_step.
  pose proof (modifyLoop_events p s o (h ++ e0)) as H1.
  pose proof (modifyLoop_script p s o (h ++ e0)) as [P1 Z1].
  destruct (modifyLoop p s o (h ++ e0)) as [r1 e1]; cbn [fst snd] in *.
  run_step. case_ret; run_step.
  2:{ rewrite app_nil_r, map_app, filter_app, (filter_calls_none e0 H0),
        (filter_calls_all e1 H1). cbn [app].
      split; [now apply prefix_app_r | intros Hz; contradiction]. }
  subst r1. specialize (Z1 eq_refl).
  pose proof (defaultLoop_events p s o ((h ++ e0) ++ e1)) as H2.
  pose proof (defaultLoop_script p s o ((h ++ e0) ++ e1)) as [P2 Z2].
  assert (H2' : Forall (fun e => isSockDiag e.1 = false)
                  (defaultLoop p s o ((h ++ e0) ++ e1)).2).
  { eapply Forall_impl; [exact H2|]. intros e [Hs _]. exact Hs. }
  clear H2.
  destruct (defaultLoop p s o ((h ++ e0) ++ e1)) as [r2 e2]; cbn [fst snd] in *.
  run_step. case_ret; run_step.
  2:{ rewrite app_nil_r, !map_app, !filter_app, (filter_calls_none e0 H0),
        (filter_calls_all e1 H1), (filter_calls_all e2 H2'), Z1. cbn [app].
      split; [now apply prefix_app | intros Hz; contradiction]. }
  subst r2. specialize (Z2 eq_refl).
  pose proof (destroySockets_events s p o (((h ++ e0) ++ e1) ++ e2)) as H3.
  destruct (destroySocketsLackingPermission s p o _) as [r3 e3]; cbn [fst snd] in *.
  run_step.
  rewrite app_nil_r, !map_app, !filter_app, (filter_calls_none e0 H0),
    (filter_calls_all e1 H1), (filter_calls_all e2 H2'), (filter_calls_none e3 H3),
    Z1, Z2.
  cbn [app]. rewrite app_nil_r. split; reflexivity.
Qed.

Lemma setPermission_script_witness :
  let s := net100 PERMISSION_NONE false [eth0; wlan0] in
  filter (fun c => isSockDiag c = false)
    (map fst (eventsOf (setPermission PERMISSION_SYSTEM s alwaysOk []))) =
  permissionSteps PERMISSION_SYSTEM s eth0 ++ permissionSteps PERMISSION_SYSTEM s wlan0.
Proof.
  intros s.
  assert (Hp : PERMISSION_SYSTEM <> mPermission s) by discriminate.
  exact (proj2 (setPermission_script PERMISSION_SYSTEM s alwaysOk [] Hp) eq_refl).
Defined.

(** ** The socket-diagnostics passes *)

(** The ways destroySocketsLackingPermission can run. *)
Lemma destroySockets_cases (s : PhysicalNetwork) (p : Permission) (o : Oracle)
    (h : list Event) :
  let close := SockDiagDestroySocketsLackingPermission (mNetId s) p true in
  (p = PERMISSION_NONE /\ destroySocketsLackingPermission s p o h = (0, [])) \/
  (p <> PERMISSION_NONE /\
   destroySocketsLackingPermission s p o h = (- EBADFD, [(SockDiagOpen, 0)])) \/
  (p <> PERMISSION_NONE /\ exists x y, x <> 0 /\
   destroySocketsLackingPermission s p o h = (y, [(SockDiagOpen, x); (close, y)])).
Proof.
  intros close. unfold destroySocketsLackingPermission.
  destruct (decide (p = PERMISSION_NONE)) as [Hp|Hp]; [left; auto|right].
  run_step. case_ret; run_step; [left; auto|right].
  split; [exact Hp|]. fold close.
  case_ret; run_step; exists (o h SockDiagOpen); eexists; (split; [exact E|]);
    reflexivity.
Qed.

(** X9: destroySocketsLackingPermission returns 0 exactly when every
    socket-diagnostics call it made succeeded; it asks for sockets to be
    closed only after the facility opened, always for its own netId and
    with loopback sockets excluded, and answers -EBADFD when the facility
    does not open. *)
Theorem destroySockets_result (s : PhysicalNetwork) (p : Permission) (o : Oracle)
    (h : list Event) :
  let d := destroySocketsLackingPermission s p o h in
  (d.1 = 0 <-> Forall (fun e => succeeds e.1 e.2) d.2) /\
  (forall k n q b y,
     d.2 !! k = Some (SockDiagDestroySocketsLackingPermission n q b, y) ->
     k = 1%nat /\ n = mNetId s /\ q = p /\ b = true /\ d.1 = y /\
     exists x, x <> 0 /\ d.2 !! 0%nat = Some (SockDiagOpen, x)) /\
  (forall k, d.2 !! k = Some (SockDiagOpen, 0) -> d = (- EBADFD, [(SockDiagOpen, 0)])).
Proof.
  intros d. subst d.
  destruct (destroySockets_cases s p o h)
    as [(_ & ->)|[(_ & ->)|(_ & x & y & Hx & ->)]]; cbn [fst snd].
  - split; [|split].
    + split; [constructor | reflexivity].
    + intros [|k] n q b y Hk; discriminate.
    + intros [|k] Hk; discriminate.
  - split; [|split].
    + split; [discriminate|]. intros H. inversion H as [|? ? H1 _]; subst.
      cbn in H1. contradiction.
    + intros [|[|k]] n q b y Hk; discriminate.
    + reflexivity.
  - split; [|split].
    + split.
      * intros ->. repeat constructor. exact Hx.
      * intros H. inversion H as [|? ? _ H2]; subst.
        inversion H2 as [|? ? H1 _]; subst. exact H1.
    + intros [|[|[|k]]] n q b z Hk; try discriminate.
      injection Hk as <- <- <- <-. repeat split; eauto.
    + intros [|[|[|k]]] Hk; try discriminate. injection Hk as ->. contradiction.
Qed.

(** The events of setPermission on a network with interfaces, for a new
    permission: first pass, permission loop, default loop, second pass,
    cut after the loop that returns an error. *)
Lemma setPermission_events_split (p : Permission) (s : PhysicalNetwork) (o : Oracle)
    (h : list Event) :
  p <> mPermission s -> StringSet.empty (mInterfaces s) = false ->
  let r := setPermission p s o h in
  let e0 := (destroySocketsLackingPermission s p o h).2 in
  let l1 := modifyLoop p s o (h ++ e0) in
  let l2 := defaultLoop p s o ((h ++ e0) ++ l1.2) in
  let e3 := (destroySocketsLackingPermission s p o (((h ++ e0) ++ l1.2) ++ l2.2)).2 in
  (l1.1 <> 0 /\ retOf r = l1.1 /\ eventsOf r = e0 ++ l1.2) \/
  (l1.1 = 0 /\ l2.1 <> 0 /\ retOf r = l2.1 /\ eventsOf r = e0 ++ l1.2 ++ l2.2) \/
  (l1.1 = 0 /\ l2.1 = 0 /\ retOf r = 0 /\ eventsOf r = e0 ++ l1.2 ++ l2.2 ++ e3).
Proof.
  intros Hp He r e0 l1 l2 e3. subst r e3 l2 l1 e0.
  rewrite setPermission_unfold by assumption.
  unfold retOf, eventsOf. run_step.
  destruct (destroySocketsLackingPermission s p o h) as [r0 e0]; cbn [fst snd].
  run_step.
  destruct (modifyLoop p s o (h ++ e0)) as [r1 e1]; cbn [fst snd].
  run_step. case_ret; run_step.
  2:{ left. now rewrite app_nil_r. }
  right.
  destruct (defaultLoop p s o ((h ++ e0) ++ e1)) as [r2 e2]; cbn [fst snd].
  run_step. case_ret; run_step.
  2:{ left. now rewrite app_nil_r. }
  right.
  destruct (destroySocketsLackingPermission s p o _) as [r3 e3]; cbn [fst snd].
  run_step. now rewrite app_nil_r.
Qed.

Lemma no_opens (evs : list Event) :
  Forall (fun e => isSockDiag e.1 = false) evs ->
  filter (fun e : Event => isSockDiagOpen e.1 = true) evs = [].
Proof.
  induction 1 as [|e evs He _ IH]; [reflexivity|].
  rewrite filter_cons_False; [exact IH|].
  destruct e as [[] x]; cbn in *; congruence.
Qed.

Lemma one_open (s : PhysicalNetwork) (p : Permission) (o : Oracle) (h : list Event) :
  p <> PERMISSION_NONE ->
  let e := (destroySocketsLackingPermission s p o h).2 in
  length (filter (fun e : Event => isSockDiagOpen e.1 = true) e) = 1%nat /\
  (exists x, e !! 0%nat = Some (SockDiagOpen, x)) /\
  (exists c x, last e = Some (c, x) /\ isSockDiag c = true).
Proof.
  intros Hp e. subst e.
  destruct (destroySockets_cases s p o h)
    as [(Hn & _)|[(_ & ->)|(_ & x & y & Hx & ->)]]; [contradiction| |];
    cbn [snd]; (split; [reflexivity|]); split; eauto.
Qed.

(** X10: a permission change to a permission other than PERMISSION_NONE on
    a network with interfaces opens the diagnostics facility first of all;
    when it returns 0 it has opened it exactly twice, the second pass being
    the end of the run, after every routing-table and delegate call; when
    it returns an error it has opened it exactly once (no second pass). *)
Theorem setPermission_closure_passes (p : Permission) (s : PhysicalNetwork)
    (o : Oracle) (h : list Event) :
  p <> mPermission s -> mInterfaces s <> [] -> p <> PERMISSION_NONE ->
  let r := setPermission p s o h in
  let opens := length (filter (fun e : Event => isSockDiagOpen e.1 = true) (eventsOf r)) in
  (exists x, eventsOf r !! 0%nat = Some (SockDiagOpen, x)) /\
  (retOf r = 0 ->
     opens = 2%nat /\ exists c x, last (eventsOf r) = Some (c, x) /\ isSockDiag c = true) /\
  (retOf r <> 0 -> opens = 1%nat).
Proof.
  intros Hp Hi Hn r opens. subst opens r.
  assert (He : StringSet.empty (mInterfaces s) = false)
    by (destruct (mInterfaces s); [contradiction | reflexivity]).
  pose proof (one_open s p o h Hn) as (C0 & (x0 & F0) & _).
  pose proof (modifyLoop_events p s o
                (h ++ (destroySocketsLackingPermission s p o h).2)) as H1.
  apply no_opens in H1.
  destruct (setPermission_events_split p s o h Hp He)
    as [(R1 & -> & ->)|[(R1 & R2 & -> & ->)|(R1 & R2 & -> & ->)]].
  - split; [|split].
    + exists x0. now apply lookup_app_l_Some.
    + intros Hz. contradiction.
    + intros _. rewrite filter_app, length_app, C0, H1. reflexivity.
  - pose proof (defaultLoop_events p s o
                  ((h ++ (destroySocketsLackingPermission s p o h).2) ++
                   (modifyLoop p s o
                      (h ++ (destroySocketsLackingPermission s p o h).2)).2)) as H2.
    assert (H2' := no_opens _ (Forall_impl _ _ _ H2 (fun e He => proj1 He))).
    split; [|split].
    + exists x0. now apply lookup_app_l_Some.
    + intros Hz. contradiction.
    + intros _. rewrite !filter_app, !length_app, C0, H1, H2'. reflexivity.
  - pose proof (defaultLoop_events p s o
                  ((h ++ (destroySocketsLackingPermission s p o h).2) ++
                   (modifyLoop p s o
                      (h ++ (destroySocketsLackingPermission s p o h).2)).2)) as H2.
    assert (H2' := no_opens _ (Forall_impl _ _ _ H2 (fun e He => proj1 He))).
    match goal with
    | |- context [?a ++ ?b ++ ?c ++ ?d] =>
        match d with
        | (destroySocketsLackingPermission s p o ?h3).2 =>
            pose proof (one_open s p o h3 Hn) as (C3 & _ & (c3 & x3 & L3 & S3))
        end
    end.
    split; [|split].
    + exists x0. now apply lookup_app_l_Some.
    + intros _. split.
      * rewrite !filter_app, !length_app, C0, H1, H2', C3. reflexivity.
      * exists c3, x3. split; [|exact S3].
        rewrite !app_assoc. rewrite last_app, L3. reflexivity.
    + intros Hz. contradiction.
Qed.

Lemma setPermission_closure_passes_witness :
  let s := net100 PERMISSION_NONE true [eth0; wlan0] in
  length (filter (fun e : Event => isSockDiagOpen e.1 = true)
            (eventsOf (setPermission PERMISSION_NETWORK s fallthroughFails []))) = 1%nat.
Proof.
  intros s.
  assert (Hp : PERMISSION_NETWORK <> mPermission s) by discriminate.
  assert (Hi : mInterfaces s <> []) by discriminate.
  assert (Hn : PERMISSION_NETWORK <> PERMISSION_NONE) by discriminate.
  refine (proj2 (proj2 (setPermission_closure_passes PERMISSION_NETWORK s
                          fallthroughFails [] Hp Hi Hn)) _).
  vm_compute. discriminate.
Defined.

(** ** What the methods leave alone *)

Lemma withPermission_same (s : PhysicalNetwork) : withPermission (mPermission s) s = s.
Proof. destruct s; reflexivity. Qed.

Lemma withIsDefault_same (s : PhysicalNetwork) : withIsDefault (mIsDefault s) s = s.
Proof. destruct s; reflexivity. Qed.

Lemma withInterfaces_same (s : PhysicalNetwork) : withInterfaces (mInterfaces s) s = s.
Proof. destruct s; reflexivity. Qed.

Lemma withUidRangeMap_same (s : PhysicalNetwork) : withUidRangeMap (mUidRangeMap s) s = s.
Proof. destruct s; reflexivity. Qed.

Lemma setPermission_outcome (p : Permission) (s : PhysicalNetwork) (o : Oracle)
    (h : list Event) :
  let r := setPermission p s o h in
  (retOf r = 0 /\ stateOf r = withPermission p s) \/ (retOf r <> 0 /\ stateOf r = s).
Proof.
  intros r. subst r. destruct (decide (p = mPermission s)) as [->|Hp].
  { left. unfold setPermission. rewrite decide_True by reflexivity.
    unfold retOf, stateOf. cbn. now rewrite withPermission_same. }
  destruct (StringSet.empty (mInterfaces s)) eqn:He.
  { left. unfold setPermission. rewrite decide_False by exact Hp. rewrite He.
    split; reflexivity. }
  destruct (setPermission_failFast p s o h Hp He) as (_ & Hok & Hko).
  destruct (decide (retOf (setPermission p s o h) = 0)); [left|right]; auto.
Qed.

Lemma addAsDefault_outcome (s : PhysicalNetwork) (o : Oracle) (h : list Event) :
  let r := addAsDefault s o h in
  (retOf r = 0 /\ stateOf r = withIsDefault true s) \/ (retOf r <> 0 /\ stateOf r = s).
Proof.
  intros r. subst r. unfold addAsDefault, retOf, stateOf.
  destruct (mIsDefault s) eqn:Hd.
  { left. run_step. split; [reflexivity|]. rewrite <- Hd. now rewrite withIsDefault_same. }
  run_step. destruct (forInterfaces _ (mInterfaces s) o h) as [r e]; cbn [fst snd].
  case_ret; run_step; [left|right]; auto.
Qed.

Lemma removeAsDefault_outcome (s : PhysicalNetwork) (o : Oracle) (h : list Event) :
  let r := removeAsDefault s o h in
  (retOf r = 0 /\ stateOf r = withIsDefault false s) \/ (retOf r <> 0 /\ stateOf r = s).
Proof.
  intros r. subst r. unfold removeAsDefault, retOf, stateOf.
  destruct (mIsDefault s) eqn:Hd; cbn [negb].
  2:{ left. run_step. split; [reflexivity|]. rewrite <- Hd. now rewrite withIsDefault_same. }
  run_step. destruct (forInterfaces _ (mInterfaces s) o h) as [r e]; cbn [fst snd].
  case_ret; run_step; [left|right]; auto.
Qed.

Lemma modifyLoop_calls (p : Permission) (s : PhysicalNetwork) (o : Oracle)
    (h : list Event) :
  Forall (fun e => isDefaultCall e.1 = false) (modifyLoop p s o h).2.
Proof.
  apply forInterfaces_Forall. intros i h' _. run_step.
  case_ret; run_step; [|repeat constructor].
  unfold invalidateRouteCache. run_step. repeat constructor.
Qed.

Lemma sockDiag_not_default (evs : list Event) :
  Forall (fun e => isSockDiag e.1 = true) evs ->
  Forall (fun e => isDefaultCall e.1 = false) evs.
Proof. intros H. eapply Forall_impl; [exact H|]. intros [[] x]; cbn; congruence. Qed.

(** X11: on a network that is not the default, setPermission, addInterface
    and removeInterface never make a default-network or fallthrough call,
    whatever the collaborators answer. *)
Theorem non_default_network_no_default_calls (p : Permission) (i : string)
    (s : PhysicalNetwork) (o : Oracle) (h : list Event) :
  mIsDefault s = false ->
  Forall (fun e => isDefaultCall e.1 = false) (eventsOf (setPermission p s o h)) /\
  Forall (fun e => isDefaultCall e.1 = false) (eventsOf (addInterface i s o h)) /\
  Forall (fun e => isDefaultCall e.1 = false) (eventsOf (removeInterface i s o h)).
Proof.
  intros Hd. split; [|split].
  - destruct (decide (p = mPermission s)) as [->|Hp].
    { unfold setPermission. rewrite decide_True by reflexivity. constructor. }
    destruct (StringSet.empty (mInterfaces s)) eqn:He.
    { unfold setPermission. rewrite decide_False by exact Hp. rewrite He. constructor. }
    assert (Hl2 : forall h', (defaultLoop p s o h').2 = []).
    { intros h'. unfold defaultLoop. now rewrite Hd. }
    destruct (setPermission_events_split p s o h Hp He)
      as [(_ & _ & ->)|[(_ & _ & _ & ->)|(_ & _ & _ & ->)]];
      rewrite ?Hl2, ?Forall_app;
      repeat split;
      auto using modifyLoop_calls, sockDiag_not_default, destroySockets_events.
  - unfold eventsOf, addInterface. destruct (hasInterface i s); [constructor|].
    rewrite Hd. run_step. case_ret; run_step; repeat constructor.
  - unfold eventsOf, removeInterface. destruct (hasInterface i s); [|constructor].
    cbn [negb]. rewrite Hd. run_step. case_ret; run_step; repeat constructor.
Qed.

Lemma non_default_network_no_default_calls_witness :
  Forall (fun e : Event => isDefaultCall e.1 = false)
    (eventsOf (setPermission PERMISSION_SYSTEM
                 (net100 PERMISSION_NONE false [eth0; wlan0]) alwaysOk [])).
Proof.
  exact (proj1 (non_default_network_no_default_calls PERMISSION_SYSTEM eth0
                  (net100 PERMISSION_NONE false [eth0; wlan0]) alwaysOk [] eq_refl)).
Defined.

(** X12: after setPermission has returned 0 for a permission, getPermission
    gives that permission, the interface set is the same, and an interface
    attached next is registered with the routing table under it. *)
Theorem setPermission_then_addInterface (p : Permission) (i : string)
    (s : PhysicalNetwork) (o : Oracle) (h : list Event) :
  retOf (setPermission p s o h) = 0 -> i ∉ mInterfaces s ->
  let s' := stateOf (setPermission p s o h) in
  getPermission s' = p /\ mInterfaces s' = mInterfaces s /\
  forall o' h',
    exists x, eventsOf (addInterface i s' o' h') !! 0%nat =
      Some (AddInterfaceToPhysicalNetwork (mNetId s) i p (mUidRangeMap s)
              (mIsLocalNetwork s), x).
Proof.
  intros Hz Hi s'. subst s'.
  destruct (setPermission_outcome p s o h) as [[_ ->]|[Hn _]]; [|contradiction].
  split; [reflexivity|]. split; [reflexivity|]. intros o' h'.
  unfold eventsOf, addInterface, hasInterface, StringSet.find.
  cbn [mInterfaces mPermission mNetId mUidRangeMap mIsLocalNetwork mIsDefault
       withPermission].
  rewrite bool_decide_false by exact Hi. run_step. case_ret; run_step.
  - destruct (mIsDefault s); run_step.
    + destruct (addToDefault _ _ _ _ _) as [r e]; cbn [fst snd].
      case_ret; run_step; eauto.
    + eauto.
  - eauto.
Qed.

Lemma setPermission_then_addInterface_witness :
  let s := net100 PERMISSION_NONE false [eth0] in
  getPermission (stateOf (setPermission PERMISSION_SYSTEM s alwaysOk [])) =
    PERMISSION_SYSTEM.
Proof.
  intros s.
  assert (Hi : wlan0 ∉ mInterfaces s).
  { vm_compute. intros H. inversion H as [|? ? ? H']. inversion H'. }
  exact (proj1 (setPermission_then_addInterface PERMISSION_SYSTEM wlan0 s alwaysOk []
                  eq_refl Hi)).
Defined.

Section Frame.

Variables SUB_PRIORITY_HIGHEST SUB_PRIORITY_LOWEST SUB_PRIORITY_NO_DEFAULT : Z.
Variable canAddUidRanges : UidRanges -> PhysicalNetwork -> bool.

Let isValid := isValidSubPriority SUB_PRIORITY_HIGHEST SUB_PRIORITY_LOWEST
                 SUB_PRIORITY_NO_DEFAULT.
Let addUsers' := addUsers SUB_PRIORITY_HIGHEST SUB_PRIORITY_LOWEST
                   SUB_PRIORITY_NO_DEFAULT canAddUidRanges.
Let removeUsers' := removeUsers SUB_PRIORITY_HIGHEST SUB_PRIORITY_LOWEST
                      SUB_PRIORITY_NO_DEFAULT.

(** X13: every method changes at most its own field.  Whatever the
    collaborators answer, setPermission leaves everything but the
    permission as it was, the default toggles everything but isDefault,
    addInterface and removeInterface everything but the interface set,
    addUsers and removeUsers everything but the UID-range map; the netId
    and the locality flag never change. *)
Theorem methods_change_their_own_field (p : Permission) (i : string)
    (uidRanges : UidRanges) (subPriority : Z) (s : PhysicalNetwork) (o : Oracle)
    (h : list Event) :
  (exists q, stateOf (setPermission p s o h) = withPermission q s) /\
  (exists b, stateOf (addAsDefault s o h) = withIsDefault b s) /\
  (exists b, stateOf (removeAsDefault s o h) = withIsDefault b s) /\
  (exists l, stateOf (addInterface i s o h) = withInterfaces l s) /\
  (exists l, stateOf (removeInterface i s o h) = withInterfaces l s) /\
  (exists m, stateOf (addUsers' uidRanges subPriority s o h) = withUidRangeMap m s) /\
  (exists m, stateOf (removeUsers' uidRanges subPriority s o h) = withUidRangeMap m s).
Proof.
  repeat split.
  - destruct (setPermission_outcome p s o h) as [[_ ->]|[_ ->]];
      [now exists p | exists (mPermission s); now rewrite withPermission_same].
  - destruct (addAsDefault_outcome s o h) as [[_ ->]|[_ ->]];
      [now exists true | exists (mIsDefault s); now rewrite withIsDefault_same].
  - destruct (removeAsDefault_outcome s o h) as [[_ ->]|[_ ->]];
      [now exists false | exists (mIsDefault s); now rewrite withIsDefault_same].
  - destruct (addInterface_outcome i s o h)
      as [(_ & _ & -> & _)|[(_ & _ & ->)|(_ & _ & ->)]];
      first [now eexists | exists (mInterfaces s); now rewrite withInterfaces_same].
  - destruct (removeInterface_outcome i s o h)
      as [(_ & _ & -> & _)|[(_ & _ & ->)|(_ & _ & ->)]];
      first [now eexists | exists (mInterfaces s); now rewrite withInterfaces_same].
  - destruct (addUsers_cases SUB_PRIORITY_HIGHEST SUB_PRIORITY_LOWEST
                SUB_PRIORITY_NO_DEFAULT canAddUidRanges uidRanges subPriority s o h)
      as [[_ Hr]|(_ & _ & [Hr|(l1 & j & l2 & r & _ & _ & Hr)])];
      unfold addUsers'; rewrite Hr; unfold stateOf; cbn [fst snd];
      first [now eexists | exists (mUidRangeMap s); now rewrite withUidRangeMap_same].
  - destruct (removeUsers_cases SUB_PRIORITY_HIGHEST SUB_PRIORITY_LOWEST
                SUB_PRIORITY_NO_DEFAULT uidRanges subPriority s o h)
      as [[_ Hr]|(_ & [Hr|(l1 & j & l2 & r & _ & _ & Hr)])];
      unfold removeUsers'; rewrite Hr; unfold stateOf; cbn [fst snd];
      first [now eexists | exists (mUidRangeMap s); now rewrite withUidRangeMap_same].
Qed.

(** X14: a network without interfaces never calls a collaborator for a
    permission change, a default toggle or a (valid, addable) change of
    users: each of them returns 0 and just updates its field. *)
Theorem no_interfaces_no_calls (p : Permission) (uidRanges : UidRanges)
    (subPriority : Z) (s : PhysicalNetwork) (o : Oracle) (h : list Event) :
  mInterfaces s = [] ->
  (retOf (setPermission p s o h) = 0 /\ eventsOf (setPermission p s o h) = [] /\
   stateOf (setPermission p s o h) = withPermission p s) /\
  (retOf (addAsDefault s o h) = 0 /\ eventsOf (addAsDefault s o h) = [] /\
   stateOf (addAsDefault s o h) = withIsDefault true s) /\
  (retOf (removeAsDefault s o h) = 0 /\ eventsOf (removeAsDefault s o h) = [] /\
   stateOf (removeAsDefault s o h) = withIsDefault false s) /\
  (isValid subPriority = true -> canAddUidRanges uidRanges s = true ->
   addUsers' uidRanges subPriority s o h =
     ((0, withUidRangeMap (addToUidRangeMap uidRanges subPriority (mUidRangeMap s)) s),
      [])) /\
  (isValid subPriority = true ->
   removeUsers' uidRanges subPriority s o h =
     ((0, withUidRangeMap (removeFromUidRangeMap uidRanges subPriority (mUidRangeMap s))
            s), [])).
Proof.
  intros Hi. split; [|split; [|split; [|split]]].
  - unfold setPermission, retOf, eventsOf, stateOf. rewrite Hi.
    destruct (decide (p = mPermission s)) as [->|Hp]; cbn;
      rewrite ?withPermission_same; auto.
  - unfold addAsDefault, retOf, eventsOf, stateOf. rewrite Hi.
    destruct (mIsDefault s) eqn:Hd; cbn; [|auto].
    rewrite <- Hd, withIsDefault_same. auto.
  - unfold removeAsDefault, retOf, eventsOf, stateOf. rewrite Hi.
    destruct (mIsDefault s) eqn:Hd; cbn; [auto|].
    rewrite <- Hd, withIsDefault_same. auto.
  - intros Hv Hc. unfold addUsers', addUsers. fold isValid. rewrite Hv, Hc, Hi.
    reflexivity.
  - intros Hv. unfold removeUsers', removeUsers. fold isValid. rewrite Hv, Hi.
    reflexivity.
Qed.

End Frame.

Lemma no_interfaces_no_calls_witness :
  let s := newPhysicalNetwork 100 false in
  setPermission PERMISSION_SYSTEM s sockDiagDown [] =
    ((0, withPermission PERMISSION_SYSTEM s), []) /\
  addAsDefault s sockDiagDown [] = ((0, withIsDefault true s), []).
Proof.
  intros s.
  destruct (no_interfaces_no_calls 0 998 999 overlapPolicy PERMISSION_SYSTEM
              [(1000, 1999)] 10 s sockDiagDown [] eq_refl)
    as ((R1 & E1 & S1) & (R2 & E2 & S2) & _).
  split.
  - destruct (setPermission PERMISSION_SYSTEM s sockDiagDown []) as [[r t] e].
    unfold retOf, eventsOf, stateOf in *. cbn [fst snd] in *. now subst.
  - destruct (addAsDefault s sockDiagDown []) as [[r t] e].
    unfold retOf, eventsOf, stateOf in *. cbn [fst snd] in *. now subst.
Defined.

Lemma destroySockets_result_witness :
  let s := net100 PERMISSION_NONE false [eth0] in
  let d := destroySocketsLackingPermission s PERMISSION_SYSTEM alwaysOk [] in
  d.1 = 0 /\ exists x, x <> 0 /\ d.2 !! 0%nat = Some (SockDiagOpen, x).
Proof.
  intros s d.
  destruct (destroySockets_result s PERMISSION_SYSTEM alwaysOk []) as (_ & Hclose & _).
  assert (Hk : d.2 !! 1%nat =
               Some (SockDiagDestroySocketsLackingPermission 100 PERMISSION_SYSTEM true, 0))
    by (vm_compute; reflexivity).
  destruct (Hclose 1%nat 100%N PERMISSION_SYSTEM true 0 Hk) as (_ & _ & _ & _ & Hr & Hx).
  split; [exact Hr | exact Hx].
Defined.
